(** * storage_manifests.py: the vSphere storage manifests of the charm

    A shallow embedding of [src/storage_manifests.py] and the properties of
    its configuration resolver, readiness check, fingerprint, secret
    addition and deployment patch.

    Conventions of the embedding.
    - A Python [str] is the Rocq [string] of its UTF-8 bytes.  Comparing two
      [str] by code points is comparing their UTF-8 bytes, [str.encode()]
      yields the very same bytes, and [bytes.decode("utf-8")] reads them back.
    - A Python [dict] is an association list in insertion order; the keys of
      a well-formed dict are pairwise distinct ([wf_value]).
    - A resource object is a tree of such values.  An assignment through a
      path ([obj["spec"]["replicas"] = r]) mutates the object in place; here
      the mutated object is returned next to the way the call ended.
    - Values are [None], booleans, integers, strings, lists and dicts;
      floating-point numbers are left out.
    - Calls to the logger are left out, except where building the message
      can itself raise (the warning of line 49 subscripts the object). *)

From Stdlib Require Import String Ascii List ZArith NArith Bool Lia.
From Stdlib Require Import Strings.Byte DecimalString.
From Stdlib Require Import Permutation OrderedTypeEx.
Import ListNotations.

Set Warnings "-register-all".
Local Open Scope list_scope.
Local Open Scope string_scope.

(** ** Python values *)

Inductive value : Type :=
| VNone
| VBool (b : bool)
| VInt (n : Z)
| VStr (s : string)
| VList (l : list value)
| VDict (d : list (string * value)).

Definition dict : Type := list (string * value).

(** [bool(v)]. *)
Definition truthy (v : value) : bool :=
  match v with
  | VNone => false
  | VBool b => b
  | VInt n => negb (n =? 0)%Z
  | VStr s => negb (s =? EmptyString)
  | VList l => match l with [] => false | _ :: _ => true end
  | VDict d => match d with [] => false | _ :: _ => true end
  end.

(** [v == s] for a string literal [s]. *)
Definition eq_str (v : value) (s : string) : bool :=
  match v with
  | VStr s' => s' =? s
  | _ => false
  end.

(** [v is None]. *)
Definition is_None (v : value) : bool :=
  match v with
  | VNone => true
  | _ => false
  end.

(** [isinstance(v, dict)]. *)
Definition is_dict (v : value) : bool :=
  match v with
  | VDict _ => true
  | _ => false
  end.

(** ** Dictionaries *)

Fixpoint dict_get (k : string) (d : dict) : option value :=
  match d with
  | [] => None
  | (k', v) :: r => if k' =? k then Some v else dict_get k r
  end.

(** [d.get(k)]: [None] when the key is absent. *)
Definition get (d : dict) (k : string) : value :=
  match dict_get k d with
  | Some v => v
  | None => VNone
  end.

(** [d[k] = v]: an existing key keeps its place, a new one goes last. *)
Fixpoint dict_set (k : string) (v : value) (d : dict) : dict :=
  match d with
  | [] => [(k, v)]
  | (k', v') :: r =>
      if k' =? k then (k, v) :: r else (k', v') :: dict_set k v r
  end.

(** [del d[k]]. *)
Fixpoint dict_del (k : string) (d : dict) : dict :=
  match d with
  | [] => []
  | (k', v') :: r =>
      if k' =? k then dict_del k r else (k', v') :: dict_del k r
  end.

(** [d.update(e)] with the entries of [e] as keyword arguments. *)
Definition dict_update (d e : dict) : dict :=
  fold_left (fun acc kv => dict_set (fst kv) (snd kv) acc) e d.

(** [d.pop(k, default)]: the value and the dict that is left. *)
Definition dict_pop (k : string) (default : value) (d : dict) : value * dict :=
  (match dict_get k d with Some v => v | None => default end, dict_del k d).

Definition keys (d : dict) : list string := map fst d.

(** ** Exceptions *)

Inductive exn : Type :=
| KeyError (k : string)
| TypeError
| AttributeError.

Inductive result (A : Type) : Type :=
| Ok (a : A)
| Raise (e : exn).

Arguments Ok {A} a.
Arguments Raise {A} e.

Definition bind {A B : Type} (r : result A) (f : A -> result B) : result B :=
  match r with
  | Ok a => f a
  | Raise e => Raise e
  end.

Notation "x <- r ;; k" := (bind r (fun x => k))
  (at level 61, r at next level, right associativity).

(** [v.get(k)]: only a dict has the method. *)
Definition get_method (v : value) (k : string) : result value :=
  match v with
  | VDict d => Ok (get d k)
  | _ => Raise AttributeError
  end.

(** [v[k]] for a string [k]: a missing key raises [KeyError]; a list, a
    string, a number or [None] subscripted by a string raises [TypeError]. *)
Definition getitem (v : value) (k : string) : result value :=
  match v with
  | VDict d =>
      match dict_get k d with
      | Some x => Ok x
      | None => Raise (KeyError k)
      end
  | _ => Raise TypeError
  end.

(** [v[k] = x] for a string [k]: the container after the assignment. *)
Definition setitem (v : value) (k : string) (x : value) : result value :=
  match v with
  | VDict d => Ok (VDict (dict_set k x d))
  | _ => Raise TypeError
  end.

(** [v[p1]...[pn][k] = x]: the subscripts [p1 ... pn] are read, the last
    container is assigned to, and since the containers are shared objects
    the change shows in [v]. *)
Fixpoint setitem_path (v : value) (path : list string) (k : string) (x : value)
  : result value :=
  match path with
  | [] => setitem v k x
  | p :: rest =>
      inner <- getitem v p ;;
      inner' <- setitem_path inner rest k x ;;
      setitem v p inner'
  end.

(** [v[p1]...[pn]]. *)
Fixpoint getitem_path (v : value) (path : list string) : result value :=
  match path with
  | [] => Ok v
  | p :: rest => inner <- getitem v p ;; getitem_path inner rest
  end.

(** ** UpdateDeployment *)

(** The test of lines 32-34; [and] evaluates its right operand only when the
    left one holds. *)
Definition is_controller_deployment (obj : value) : result bool :=
  kind <- get_method obj "kind" ;;
  if eq_str kind "Deployment" then
    name <- getitem_path obj ["metadata"; "name"] ;;
    Ok (eq_str name "vsphere-csi-controller")
  else Ok false.

(** [UpdateDeployment.__call__], on the configuration the manifests
    currently resolve to: the object after the call, and how the call
    ended. *)
Definition UpdateDeployment (config : dict) (obj : value) : value * result unit :=
  match is_controller_deployment obj with
  | Raise e => (obj, Raise e)
  | Ok false => (obj, Ok tt)
  | Ok true =>
      let node_selector := get config "control-node-selector" in
      if negb (is_dict node_selector) then (obj, Ok tt)
      else
        match setitem_path obj ["spec"; "template"; "spec"] "nodeSelector"
                node_selector with
        | Raise e => (obj, Raise e)
        | Ok obj1 =>
            let replicas := get config "replicas" in
            if negb (truthy replicas) then
              (* the warning formats obj['spec']['replicas'] *)
              match getitem_path obj1 ["spec"; "replicas"] with
              | Raise e => (obj1, Raise e)
              | Ok _ => (obj1, Ok tt)
              end
            else
              match setitem_path obj1 ["spec"] "replicas" replicas with
              | Raise e => (obj1, Raise e)
              | Ok obj2 => (obj2, Ok tt)
              end
        end
  end.

(** ** The sources of the configuration *)

Module Integrator.
Record t : Type := {
  is_ready : bool;
  vsphere_ip : value;
  user : value;
  password : value;
  datacenter : value
}.
End Integrator.

Module KubeControl.
Record t : Type := {
  is_ready : bool;
  registry_location : value
}.
End KubeControl.

Module CharmConfig.
Record t : Type := {
  available_data : dict
}.
End CharmConfig.

(** [ops.model.Relation], as far as it is read: the remote application's
    name and the related units. *)
Module Relation.
Record Application : Type := { name : string }.
Record t : Type := {
  app : Application;
  units : list string
}.
End Relation.

Record VsphereStorageManifests : Type := {
  charm_config : CharmConfig.t;
  integrator : Integrator.t;
  control_plane : option Relation.t;
  kube_control : KubeControl.t;
  model_uuid : string
}.

(** Lines 148-163 of [config]: the three relation layers and the charm
    overlay. *)
Definition merged_config (m : VsphereStorageManifests) : dict :=
  let config : dict := [] in
  let config :=
    if Integrator.is_ready (integrator m) then
      [ ("server", Integrator.vsphere_ip (integrator m));
        ("username", Integrator.user (integrator m));
        ("password", Integrator.password (integrator m));
        ("datacenter", Integrator.datacenter (integrator m)) ]
    else config in
  let config :=
    if KubeControl.is_ready (kube_control m) then
      dict_set "image-registry" (KubeControl.registry_location (kube_control m))
        config
    else config in
  let config :=
    match control_plane m with
    | Some rel =>
        let config :=
          dict_set "control-node-selector"
            (VDict [("juju-application", VStr (Relation.name (Relation.app rel)))])
            config in
        dict_set "replicas" (VInt (Z.of_nat (length (Relation.units rel)))) config
    | None => config
    end in
  dict_update config (CharmConfig.available_data (charm_config m)).

(** The test of line 166: [value == "" or value is None]. *)
Definition is_empty (v : value) : bool := eq_str v EmptyString || is_None v.

(** Lines 165-167: the loop runs over a copy and deletes from [config]. *)
Definition drop_empty (config : dict) : dict :=
  fold_left
    (fun config kv =>
       if is_empty (snd kv) then dict_del (fst kv) config else config)
    config config.

(** Line 169. *)
Definition rename_release (config : dict) : dict :=
  let '(v, config) := dict_pop "storage-release" VNone config in
  dict_set "release" v config.

(** The [config] property. *)
Definition config (m : VsphereStorageManifests) : dict :=
  rename_release (drop_empty (merged_config m)).

(** ** evaluate *)

Definition props : list string :=
  ["server"; "username"; "password"; "datacenter"; "control-node-selector"].

(** The loop of [evaluate]; falling off its end returns [None]. *)
Fixpoint evaluate_loop (config : dict) (ps : list string) : option string :=
  match ps with
  | [] => None
  | prop :: rest =>
      let value := get config prop in
      if negb (truthy value) then
        Some ("Storage manifests waiting for definition of " ++ prop)
      else evaluate_loop config rest
  end.

Definition evaluate_config (config : dict) : option string :=
  evaluate_loop config props.

Definition evaluate (m : VsphereStorageManifests) : option string :=
  evaluate_config (config m).

(** ** json.dumps(config, sort_keys=True) *)

Definition dq : string := String "034"%char EmptyString.
Definition backslash : string := String "092"%char EmptyString.
Definition nl : string := String "010"%char EmptyString.

Definition hex_digit (n : N) : ascii :=
  match String.get (N.to_nat n) "0123456789abcdef" with
  | Some c => c
  | None => "0"%char
  end.

Definition hex2 (n : N) : string :=
  String (hex_digit (n / 16 mod 16)) (String (hex_digit (n mod 16)) EmptyString).

Definition hex4 (n : N) : string := hex2 (n / 256) ++ hex2 n.

(** The code points of a string, read off its UTF-8 bytes.  A byte that
    starts no well-formed sequence stands for itself; a [str] has none. *)
Fixpoint code_points (s : string) : list N :=
  match s with
  | EmptyString => []
  | String c0 r0 =>
      let b0 := N_of_ascii c0 in
      if (b0 <? 0xc0)%N then b0 :: code_points r0
      else
        match r0 with
        | EmptyString => [b0]
        | String c1 r1 =>
            let b1 := (N_of_ascii c1 mod 64)%N in
            if (b0 <? 0xe0)%N then ((b0 - 0xc0) * 64 + b1)%N :: code_points r1
            else
              match r1 with
              | EmptyString => [b0; N_of_ascii c1]
              | String c2 r2 =>
                  let b2 := (N_of_ascii c2 mod 64)%N in
                  if (b0 <? 0xf0)%N then
                    ((b0 - 0xe0) * 4096 + b1 * 64 + b2)%N :: code_points r2
                  else
                    match r2 with
                    | EmptyString => [b0; N_of_ascii c1; N_of_ascii c2]
                    | String c3 r3 =>
                        let b3 := (N_of_ascii c3 mod 64)%N in
                        ((b0 - 0xf0) * 262144 + b1 * 4096 + b2 * 64 + b3)%N
                          :: code_points r3
                    end
              end
        end
  end.

(** One code point under [ensure_ascii]: the short escapes, the printable
    ASCII characters as they are, everything else as [\uXXXX], above the
    basic plane as a surrogate pair. *)
Definition escape_code_point (cp : N) : string :=
  if (cp =? 0x5c)%N then backslash ++ backslash
  else if (cp =? 0x22)%N then backslash ++ dq
  else if (cp =? 0x08)%N then backslash ++ "b"
  else if (cp =? 0x0c)%N then backslash ++ "f"
  else if (cp =? 0x0a)%N then backslash ++ "n"
  else if (cp =? 0x0d)%N then backslash ++ "r"
  else if (cp =? 0x09)%N then backslash ++ "t"
  else if (0x20 <=? cp)%N && (cp <=? 0x7e)%N then
    String (ascii_of_N cp) EmptyString
  else if (cp <? 0x10000)%N then backslash ++ "u" ++ hex4 cp
  else
    let n := (cp - 0x10000)%N in
    let s1 := N.lor 0xd800 (N.land (N.shiftr n 10) 0x3ff) in
    let s2 := N.lor 0xdc00 (N.land n 0x3ff) in
    backslash ++ "u" ++ hex4 s1 ++ backslash ++ "u" ++ hex4 s2.

Definition encode_basestring_ascii (s : string) : string :=
  dq ++ String.concat EmptyString (map escape_code_point (code_points s)) ++ dq.

(** [str(n)] of an integer. *)
Definition str_int (n : Z) : string := NilZero.string_of_int (Z.to_int n).

(** [sorted(items)]: the keys of a dict being distinct, the items are
    ordered by key alone. *)
Fixpoint insert_item {A : Type} (kv : string * A) (l : list (string * A))
  : list (string * A) :=
  match l with
  | [] => [kv]
  | x :: r =>
      if String.leb (fst kv) (fst x) then kv :: x :: r
      else x :: insert_item kv r
  end.

Fixpoint sort_items {A : Type} (l : list (string * A)) : list (string * A) :=
  match l with
  | [] => []
  | kv :: r => insert_item kv (sort_items r)
  end.

(** [json.dumps(v, sort_keys=True)] with the default separators.  The
    encoder sorts the items of a dict and then encodes each value; here each
    value is encoded first and the encoded items are sorted, which is the
    same text. *)
Fixpoint dumps (v : value) : string :=
  match v with
  | VNone => "null"
  | VBool true => "true"
  | VBool false => "false"
  | VInt n => str_int n
  | VStr s => encode_basestring_ascii s
  | VList l => "[" ++ String.concat ", " (map dumps l) ++ "]"
  | VDict d =>
      "{" ++
      String.concat ", "
        (map (fun kv => encode_basestring_ascii (fst kv) ++ ": " ++ snd kv)
           (sort_items (map (fun kv => (fst kv, dumps (snd kv))) d)))
      ++ "}"
  end.

(** ** hashlib.md5 *)

Definition bytes : Type := list byte.

(** [s.encode("utf8")] and [b.decode("utf-8")]. *)
Definition encode (s : string) : bytes := list_byte_of_string s.
Definition decode (b : bytes) : string := string_of_list_byte b.

Module MD5.
Local Open Scope N_scope.

Definition add32 (x y : N) : N := (x + y) mod 0x100000000.
Definition not32 (x : N) : N := N.lxor x 0xffffffff.
Definition rotl32 (x c : N) : N :=
  N.lor (N.shiftl x c mod 0x100000000) (N.shiftr x (32 - c)).

Definition s : list N :=
  [7; 12; 17; 22; 7; 12; 17; 22; 7; 12; 17; 22; 7; 12; 17; 22;
   5; 9; 14; 20; 5; 9; 14; 20; 5; 9; 14; 20; 5; 9; 14; 20;
   4; 11; 16; 23; 4; 11; 16; 23; 4; 11; 16; 23; 4; 11; 16; 23;
   6; 10; 15; 21; 6; 10; 15; 21; 6; 10; 15; 21; 6; 10; 15; 21].

Definition K : list N :=
  [0xd76aa478; 0xe8c7b756; 0x242070db; 0xc1bdceee;
   0xf57c0faf; 0x4787c62a; 0xa8304613; 0xfd469501;
   0x698098d8; 0x8b44f7af; 0xffff5bb1; 0x895cd7be;
   0x6b901122; 0xfd987193; 0xa679438e; 0x49b40821;
   0xf61e2562; 0xc040b340; 0x265e5a51; 0xe9b6c7aa;
   0xd62f105d; 0x02441453; 0xd8a1e681; 0xe7d3fbc8;
   0x21e1cde6; 0xc33707d6; 0xf4d50d87; 0x455a14ed;
   0xa9e3e905; 0xfcefa3f8; 0x676f02d9; 0x8d2a4c8a;
   0xfffa3942; 0x8771f681; 0x6d9d6122; 0xfde5380c;
   0xa4beea44; 0x4bdecfa9; 0xf6bb4b60; 0xbebfbc70;
   0x289b7ec6; 0xeaa127fa; 0xd4ef3085; 0x04881d05;
   0xd9d4d039; 0xe6db99e5; 0x1fa27cf8; 0xc4ac5665;
   0xf4292244; 0x432aff97; 0xab9423a7; 0xfc93a039;
   0x655b59c3; 0x8f0ccc92; 0xffeff47d; 0x85845dd1;
   0x6fa87e4f; 0xfe2ce6e0; 0xa3014314; 0x4e0811a1;
   0xf7537e82; 0xbd3af235; 0x2ad7d2bb; 0xeb86d391].

Definition at_ (l : list N) (i : N) : N := nth (N.to_nat i) l 0.

(** [n] bytes of [x], least significant first. *)
Fixpoint le_bytes (n : nat) (x : N) : list N :=
  match n with
  | O => []
  | S n' => (x mod 256) :: le_bytes n' (x / 256)
  end.

Fixpoint words_le (bs : list N) : list N :=
  match bs with
  | b0 :: b1 :: b2 :: b3 :: r =>
      (b0 + 256 * b1 + 65536 * b2 + 16777216 * b3) :: words_le r
  | _ => []
  end.

Definition pad (msg : list N) : list N :=
  let len := N.of_nat (length msg) in
  (msg ++ [0x80] ++ repeat 0 (N.to_nat ((119 - len mod 64) mod 64))
     ++ le_bytes 8 ((8 * len) mod 0x10000000000000000))%list.

Definition state : Type := N * N * N * N.

Definition step (M : list N) (st : state) (i : N) : state :=
  let '(A, B, C, D) := st in
  let '(F, g) :=
    if i <? 16 then (N.lor (N.land B C) (N.land (not32 B) D), i)
    else if i <? 32 then
      (N.lor (N.land D B) (N.land (not32 D) C), (5 * i + 1) mod 16)
    else if i <? 48 then (N.lxor B (N.lxor C D), (3 * i + 5) mod 16)
    else (N.lxor C (N.lor B (not32 D)), (7 * i) mod 16) in
  let F := add32 (add32 (add32 F A) (at_ K i)) (at_ M g) in
  (D, add32 B (rotl32 F (at_ s i)), B, C).

Definition block (M : list N) (st : state) : state :=
  let '(a0, b0, c0, d0) := st in
  let '(A, B, C, D) := fold_left (step M) (map N.of_nat (seq 0 64)) st in
  (add32 a0 A, add32 b0 B, add32 c0 C, add32 d0 D).

Fixpoint blocks (fuel : nat) (bs : list N) (st : state) : state :=
  match fuel, bs with
  | S fuel', _ :: _ =>
      blocks fuel' (skipn 64 bs) (block (words_le (firstn 64 bs)) st)
  | _, _ => st
  end.

(** The sixteen bytes of the digest. *)
Definition digest (msg : bytes) : list N :=
  let padded := pad (map Byte.to_N msg) in
  let '(a0, b0, c0, d0) :=
    blocks (length padded) padded
      (0x67452301, 0xefcdab89, 0x98badcfe, 0x10325476) in
  (le_bytes 4 a0 ++ le_bytes 4 b0 ++ le_bytes 4 c0 ++ le_bytes 4 d0)%list.

Definition hexdigest (msg : bytes) : string :=
  String.concat EmptyString (map hex2 (digest msg)).

End MD5.

(** [int(s, 16)] on a string of hexadecimal digits. *)
Definition hex_value (c : ascii) : Z :=
  let n := Z.of_N (N_of_ascii c) in
  if (48 <=? n)%Z && (n <=? 57)%Z then (n - 48)%Z
  else if (97 <=? n)%Z && (n <=? 102)%Z then (n - 87)%Z
  else if (65 <=? n)%Z && (n <=? 70)%Z then (n - 55)%Z
  else 0%Z.

Fixpoint int16_from (acc : Z) (s : string) : Z :=
  match s with
  | EmptyString => acc
  | String c r => int16_from (16 * acc + hex_value c)%Z r
  end.

Definition int16 (s : string) : Z := int16_from 0%Z s.

(** [hash], on the configuration the manifests resolve to. *)
Definition hash_config (config : dict) : Z :=
  int16 (MD5.hexdigest (encode (dumps (VDict config)))).

Definition hash (m : VsphereStorageManifests) : Z := hash_config (config m).

(** ** base64.b64encode *)

Module Base64.
Local Open Scope N_scope.

Definition alphabet : string :=
  "ABCDEFGHIJKLMNOPQRSTUVWXYZabcdefghijklmnopqrstuvwxyz0123456789+/".

Definition pad : byte := x3d.

Definition char (i : N) : byte :=
  match String.get (N.to_nat i) alphabet with
  | Some c => byte_of_ascii c
  | None => pad
  end.

Fixpoint b64encode (bs : bytes) : bytes :=
  match bs with
  | [] => []
  | [x] =>
      let a := Byte.to_N x in
      [char (a / 4); char (a mod 4 * 16); pad; pad]
  | [x; y] =>
      let a := Byte.to_N x in
      let b := Byte.to_N y in
      [char (a / 4); char (a mod 4 * 16 + b / 16); char (b mod 16 * 4); pad]
  | x :: y :: z :: r =>
      let a := Byte.to_N x in
      let b := Byte.to_N y in
      let c := Byte.to_N z in
      char (a / 4) :: char (a mod 4 * 16 + b / 16)
        :: char (b mod 16 * 4 + c / 64) :: char (c mod 64) :: b64encode r
  end.

(** The inverse reading, [base64.b64decode], with which a consumer of the
    secret gets at the blob. *)
Definition index (c : byte) : option N :=
  let n := Byte.to_N c in
  if (65 <=? n) && (n <=? 90) then Some (n - 65)
  else if (97 <=? n) && (n <=? 122) then Some (n - 71)
  else if (48 <=? n) && (n <=? 57) then Some (n + 4)
  else if n =? 43 then Some 62
  else if n =? 47 then Some 63
  else None.

Definition byte_of_N (n : N) : byte :=
  match Byte.of_N n with
  | Some b => b
  | None => x00
  end.

Fixpoint b64decode (cs : bytes) : option bytes :=
  match cs with
  | [] => Some []
  | c1 :: c2 :: c3 :: c4 :: r =>
      match index c1, index c2 with
      | Some i1, Some i2 =>
          let b1 := byte_of_N (i1 * 4 + i2 / 16) in
          if Byte.eqb c3 pad then
            if Byte.eqb c4 pad then
              match r with [] => Some [b1] | _ :: _ => None end
            else None
          else
            match index c3 with
            | Some i3 =>
                let b2 := byte_of_N (i2 mod 16 * 16 + i3 / 4) in
                if Byte.eqb c4 pad then
                  match r with [] => Some [b1; b2] | _ :: _ => None end
                else
                  match index c4, b64decode r with
                  | Some i4, Some rest =>
                      Some (b1 :: b2 :: byte_of_N (i3 mod 4 * 64 + i4) :: rest)
                  | _, _ => None
                  end
            | None => None
            end
      | _, _ => None
      end
  | _ => None
  end.

End Base64.

(** ** CreateSecret *)

Definition SECRET_NAME : string := "vsphere-config-secret".
Definition SECRET_DATA : string := "csi-vsphere.conf".

Section Secret.

(** Python's [repr] of a list or a dict, which is what an f-string prints
    for one; it belongs to the interpreter and is taken as given. *)
Variable repr : value -> string.

(** What a replacement field of an f-string prints for a value. *)
Definition str (v : value) : string :=
  match v with
  | VNone => "None"
  | VBool true => "True"
  | VBool false => "False"
  | VInt n => str_int n
  | VStr s => s
  | VList _ | VDict _ => repr v
  end.

(** The f-string of lines 68-78. *)
Definition secret_config (model_uuid : string)
    (user passwd server datacenter : value) : string :=
  "[Global]" ++ nl ++
  "cluster-id = " ++ dq ++ model_uuid ++ dq ++ nl ++
  nl ++
  "[VirtualCenter " ++ dq ++ str server ++ dq ++ "]" ++ nl ++
  "insecure-flag = " ++ dq ++ "true" ++ dq ++ nl ++
  "user = " ++ dq ++ str user ++ dq ++ nl ++
  "password = " ++ dq ++ str passwd ++ dq ++ nl ++
  "port = " ++ dq ++ "443" ++ dq ++ nl ++
  "datacenters = " ++ dq ++ str datacenter ++ dq ++ nl.

(** [CreateSecret.__call__], on the configuration and the model uuid of
    the manifests; [None] is the bare [return]. *)
Definition CreateSecret (config : dict) (model_uuid : string) : option value :=
  let user := get config "username" in
  let passwd := get config "password" in
  let server := get config "server" in
  let datacenter := get config "datacenter" in
  if existsb is_None [user; passwd; server; datacenter] then None
  else
    let secret_config :=
      encode (secret_config model_uuid user passwd server datacenter) in
    Some (VDict
      [ ("apiVersion", VStr "v1");
        ("kind", VStr "Secret");
        ("type", VStr "Opaque");
        ("metadata", VDict [("name", VStr SECRET_NAME)]);
        ("data",
         VDict [(SECRET_DATA, VStr (decode (Base64.b64encode secret_config)))])
      ]).

End Secret.

(** ** Values without a line feed

    The f-string ends each of its lines with a line feed and embeds the
    values as they are. *)

Fixpoint no_newline (s : string) : bool :=
  match s with
  | EmptyString => true
  | String c r => negb (Ascii.eqb c "010") && no_newline r
  end.

(** ** Well-formed values and values of the same content *)

Fixpoint distinct (l : list string) : bool :=
  match l with
  | [] => true
  | k :: r => negb (existsb (String.eqb k) r) && distinct r
  end.

(** The keys of every dict in the value are pairwise distinct. *)
Fixpoint wf_value (v : value) : bool :=
  match v with
  | VList l => forallb wf_value l
  | VDict d => distinct (keys d) && forallb (fun kv => wf_value (snd kv)) d
  | _ => true
  end.

(** [same_content v v']: [v'] is [v] up to the order in which the keys of
    its dicts, at any depth, were inserted. *)
Inductive same_content : value -> value -> Prop :=
| same_None : same_content VNone VNone
| same_Bool (b : bool) : same_content (VBool b) (VBool b)
| same_Int (n : Z) : same_content (VInt n) (VInt n)
| same_Str (s : string) : same_content (VStr s) (VStr s)
| same_List (l l' : list value) :
    same_elements l l' -> same_content (VList l) (VList l')
| same_Dict (d e d' : dict) :
    Permutation d e -> same_items e d' -> same_content (VDict d) (VDict d')
with same_elements : list value -> list value -> Prop :=
| same_nil : same_elements [] []
| same_cons (v v' : value) (l l' : list value) :
    same_content v v' -> same_elements l l' ->
    same_elements (v :: l) (v' :: l')
with same_items : dict -> dict -> Prop :=
| items_nil : same_items [] []
| items_cons (k : string) (v v' : value) (d d' : dict) :
    same_content v v' -> same_items d d' ->
    same_items ((k, v) :: d) ((k, v') :: d').

Scheme same_content_mut := Minimality for same_content Sort Prop
  with same_elements_mut := Minimality for same_elements Sort Prop
  with same_items_mut := Minimality for same_items Sort Prop.

(** What the drop-empty pass leaves of the entry of [k]. *)
Definition kept (merged : dict) (k : string) : option value :=
  match dict_get k merged with
  | Some v => if is_empty v then None else Some v
  | None => None
  end.

(** ** Sample data *)

(** A [repr] for configurations that hold strings only, where none is
    asked for. *)
Definition no_repr (v : value) : string := EmptyString.

(** The controller Deployment of the upstream bundle, as far as the patch
    looks at it. *)
Definition controller : value :=
  VDict
    [ ("apiVersion", VStr "apps/v1");
      ("kind", VStr "Deployment");
      ("metadata", VDict [("name", VStr "vsphere-csi-controller")]);
      ("spec",
       VDict
         [ ("replicas", VInt 1);
           ("template",
            VDict
              [ ("spec",
                 VDict [("serviceAccountName", VStr "vsphere-csi-controller")])
              ]) ]) ].

Definition service : value :=
  VDict
    [ ("apiVersion", VStr "v1");
      ("kind", VStr "Service");
      ("metadata", VDict [("name", VStr "vsphere-csi-controller")]);
      ("spec", VDict [("replicas", VInt 1)]) ].

(** The configuration of the specification's readiness example: no server. *)
Definition config_without_server : dict :=
  [ ("username", VStr "u"); ("password", VStr "p"); ("datacenter", VStr "d");
    ("control-node-selector", VDict [("a", VInt 1)]) ].

Definition config_full : dict :=
  [ ("server", VStr "10.0.0.1"); ("username", VStr "admin");
    ("password", VStr "p w=x"); ("datacenter", VStr "dc1");
    ("control-node-selector", VDict [("juju-application", VStr "app1")]);
    ("replicas", VInt 3); ("release", VNone) ].

(** [config_full] with the keys inserted in another order, inside the
    nested mapping too. *)
Definition config_nested : dict :=
  [ ("server", VStr "10.0.0.1");
    ("control-node-selector",
     VDict [("juju-application", VStr "app1"); ("zone", VStr "a")]);
    ("replicas", VInt 3) ].

Definition config_nested_reordered : dict :=
  [ ("control-node-selector",
     VDict [("zone", VStr "a"); ("juju-application", VStr "app1")]);
    ("server", VStr "10.0.0.1");
    ("replicas", VInt 3) ].

Definition config_selector_only : dict :=
  [ ("control-node-selector", VDict [("juju-application", VStr "app1")]) ].

(** A control-node-selector of the wrong type, next to a replica count. *)
Definition config_bad_selector : dict :=
  [ ("control-node-selector", VStr "juju-application=app1");
    ("replicas", VInt 3) ].

(** Two configurations whose secrets are the same text: what closes the
    password in one is part of the datacenter in the other. *)
Definition closing_lines : string :=
  dq ++ nl ++ "port = " ++ dq ++ "443" ++ dq ++ nl ++ "datacenters = " ++ dq.

Definition config_split_a : dict :=
  [ ("server", VStr "vc"); ("username", VStr "u"); ("password", VStr "a");
    ("datacenter", VStr ("b" ++ closing_lines ++ "c")) ].

Definition config_split_b : dict :=
  [ ("server", VStr "vc"); ("username", VStr "u");
    ("password", VStr ("a" ++ closing_lines ++ "b"));
    ("datacenter", VStr "c") ].

(** A configuration whose password holds a double quote. *)
Definition config_quoted_password : dict :=
  [ ("server", VStr "10.0.0.1"); ("username", VStr "admin");
    ("password", VStr ("p" ++ dq ++ "w")); ("datacenter", VStr "dc1") ].

Definition sources (charm : dict) (cp : option Relation.t)
  : VsphereStorageManifests :=
  {| charm_config := {| CharmConfig.available_data := charm |};
     integrator :=
       {| Integrator.is_ready := true;
          Integrator.vsphere_ip := VStr "10.0.0.1";
          Integrator.user := VStr "admin";
          Integrator.password := VStr "secret";
          Integrator.datacenter := VStr "dc1" |};
     control_plane := cp;
     kube_control :=
       {| KubeControl.is_ready := false;
          KubeControl.registry_location := VNone |};
     model_uuid := "0b5e3c1a-model" |}.

Definition no_units : Relation.t :=
  {| Relation.app := {| Relation.name := "kubernetes-control-plane" |};
     Relation.units := [] |}.

Definition sources_storage_release : VsphereStorageManifests :=
  sources [("storage-release", VStr "1.2.3")] None.

(** Sources with values for the drop pass to remove: the integrator hands
    over an empty user and no password, and the charm sets an empty
    image-registry over the one of kube-control. *)
Definition sources_empty_values : VsphereStorageManifests :=
  {| charm_config :=
       {| CharmConfig.available_data :=
            [ ("storage-release", VStr "1.2.3");
              ("image-registry", VStr EmptyString) ] |};
     integrator :=
       {| Integrator.is_ready := true;
          Integrator.vsphere_ip := VStr "10.0.0.1";
          Integrator.user := VStr EmptyString;
          Integrator.password := VNone;
          Integrator.datacenter := VStr "dc1" |};
     control_plane := None;
     kube_control :=
       {| KubeControl.is_ready := true;
          KubeControl.registry_location := VStr "rocks.canonical.com" |};
     model_uuid := "0b5e3c1a-model" |}.

Definition sources_charm_release : VsphereStorageManifests :=
  sources [("release", VStr "1.0")] None.

Definition sources_zero_units : VsphereStorageManifests :=
  sources [] (Some no_units).

Definition sources_charm_replicas : VsphereStorageManifests :=
  sources [("replicas", VInt 2)] (Some no_units).

(** ** CreateStorageClass *)

(** [STORAGE_CLASS_NAME.format(type=sc_type)]. *)
Definition STORAGE_CLASS_NAME (type : string) : string :=
  "csi-vsphere-" ++ type.

(** [CreateStorageClass.__call__] for the class type given at construction;
    it reads nothing of the configuration. *)
Definition CreateStorageClass (sc_type : string) : option value :=
  let storage_name := STORAGE_CLASS_NAME sc_type in
  Some (VDict
    [ ("apiVersion", VStr "storage.k8s.io/v1");
      ("kind", VStr "StorageClass");
      ("metadata",
       VDict
         [ ("name", VStr storage_name);
           ("annotations",
            VDict [("storageclass.kubernetes.io/is-default-class",
                    VStr "true")]) ]);
      ("provisioner", VStr "csi.vsphere.vmware.com");
      ("parameters",
       VDict [("storagepolicyname", VStr "vSAN Default Storage Policy")]) ]).

(** ** The relation layers

    [config] before line 163: what the three relations contribute, the
    charm's own values not yet laid over it. *)
Definition relation_config (m : VsphereStorageManifests) : dict :=
  let config : dict := [] in
  let config :=
    if Integrator.is_ready (integrator m) then
      [ ("server", Integrator.vsphere_ip (integrator m));
        ("username", Integrator.user (integrator m));
        ("password", Integrator.password (integrator m));
        ("datacenter", Integrator.datacenter (integrator m)) ]
    else config in
  let config :=
    if KubeControl.is_ready (kube_control m) then
      dict_set "image-registry" (KubeControl.registry_location (kube_control m))
        config
    else config in
  match control_plane m with
  | Some rel =>
      let config :=
        dict_set "control-node-selector"
          (VDict [("juju-application", VStr (Relation.name (Relation.app rel)))])
          config in
      dict_set "replicas" (VInt (Z.of_nat (length (Relation.units rel)))) config
  | None => config
  end.

(** The values of a dict are well formed. *)
Definition wf_items (d : dict) : bool :=
  forallb (fun kv => wf_value (snd kv)) d.

(** The values the sources hand over are well formed. *)
Definition wf_sources (m : VsphereStorageManifests) : bool :=
  wf_value (Integrator.vsphere_ip (integrator m)) &&
  wf_value (Integrator.user (integrator m)) &&
  wf_value (Integrator.password (integrator m)) &&
  wf_value (Integrator.datacenter (integrator m)) &&
  wf_value (KubeControl.registry_location (kube_control m)) &&
  wf_items (CharmConfig.available_data (charm_config m)).

(** Sources with nothing ready and nothing related. *)
Definition sources_not_ready (charm : dict) : VsphereStorageManifests :=
  {| charm_config := {| CharmConfig.available_data := charm |};
     integrator :=
       {| Integrator.is_ready := false;
          Integrator.vsphere_ip := VNone;
          Integrator.user := VNone;
          Integrator.password := VNone;
          Integrator.datacenter := VNone |};
     control_plane := None;
     kube_control :=
       {| KubeControl.is_ready := false;
          KubeControl.registry_location := VNone |};
     model_uuid := "0b5e3c1a-model" |}.

Definition two_units : Relation.t :=
  {| Relation.app := {| Relation.name := "kubernetes-control-plane" |};
     Relation.units :=
       ["kubernetes-control-plane/0"; "kubernetes-control-plane/1"] |}.

(** A controller Deployment without a replica count. *)
Definition controller_no_replicas : value :=
  VDict
    [ ("kind", VStr "Deployment");
      ("metadata", VDict [("name", VStr "vsphere-csi-controller")]);
      ("spec",
       VDict [("template", VDict [("spec", VDict [])])]) ].

(** A Deployment without metadata. *)
Definition deployment_no_metadata : value :=
  VDict [("kind", VStr "Deployment"); ("spec", VDict [("replicas", VInt 1)])].

(** Keys in ascending order, as [sorted] leaves them. *)
Fixpoint ascending (l : list string) : bool :=
  match l with
  | [] => true
  | x :: r =>
      match r with
      | [] => true
      | y :: _ => String.leb x y && ascending r
      end
  end.

(** The sources [m] with other values of the charm's own. *)
Definition with_charm (m : VsphereStorageManifests) (charm : dict)
  : VsphereStorageManifests :=
  {| charm_config := {| CharmConfig.available_data := charm |};
     integrator := integrator m;
     control_plane := control_plane m;
     kube_control := kube_control m;
     model_uuid := model_uuid m |}.

(** The number a list of bytes stands for, most significant byte first. *)
Definition big_endian (l : list N) : Z :=
  fold_left (fun acc n => (256 * acc + Z.of_N (n mod 256))%Z) l 0%Z.

(** * Properties *)

(** Arithmetic with division by a constant. *)
Ltac divlia := zify; Z.to_euclidean_division_equations; lia.


(** ** Dictionaries *)

Lemma eq_str_true (v : value) (s : string) :
  eq_str v s = true <-> v = VStr s.
Proof.
  destruct v; simpl; split; intros H; try discriminate.
  - apply String.eqb_eq in H. now subst.
  - injection H as ->. apply String.eqb_refl.
Qed.

Lemma dict_get_set_eq (k : string) (v : value) (d : dict) :
  dict_get k (dict_set k v d) = Some v.
Proof.
  induction d as [|[k' v'] r IH]; simpl.
  - now rewrite String.eqb_refl.
  - destruct (k' =? k) eqn:E; simpl.
    + now rewrite String.eqb_refl.
    + now rewrite E.
Qed.

Lemma dict_get_set_neq (k k' : string) (v : value) (d : dict) :
  k <> k' -> dict_get k' (dict_set k v d) = dict_get k' d.
Proof.
  intros Hne. induction d as [|[k0 v0] r IH]; simpl.
  - apply String.eqb_neq in Hne. now rewrite Hne.
  - destruct (k0 =? k) eqn:E; simpl.
    + apply String.eqb_eq in E. subst k0.
      apply String.eqb_neq in Hne. now rewrite Hne.
    + now rewrite IH.
Qed.

Lemma dict_get_del_eq (k : string) (d : dict) :
  dict_get k (dict_del k d) = None.
Proof.
  induction d as [|[k0 v0] r IH]; simpl; auto.
  destruct (k0 =? k) eqn:E; simpl; auto. now rewrite E.
Qed.

Lemma dict_get_del_neq (k k' : string) (d : dict) :
  k <> k' -> dict_get k' (dict_del k d) = dict_get k' d.
Proof.
  intros Hne. induction d as [|[k0 v0] r IH]; simpl; auto.
  destruct (k0 =? k) eqn:E; simpl.
  - apply String.eqb_eq in E. subst k0.
    apply String.eqb_neq in Hne. now rewrite Hne.
  - now rewrite IH.
Qed.

Lemma dict_get_app (k : string) (d e : dict) :
  dict_get k (d ++ e)%list =
  match dict_get k d with
  | Some v => Some v
  | None => dict_get k e
  end.
Proof.
  induction d as [|[k0 v0] r IH]; simpl; auto.
  destruct (k0 =? k); auto.
Qed.

Lemma dict_get_None (k : string) (d : dict) :
  dict_get k d = None <-> ~ In k (keys d).
Proof.
  induction d as [|[k0 v0] r IH]; simpl.
  - tauto.
  - destruct (k0 =? k) eqn:E.
    + apply String.eqb_eq in E. split; [discriminate | tauto].
    + apply String.eqb_neq in E. rewrite IH. tauto.
Qed.

Lemma dict_get_rev_None (k : string) (d : dict) :
  dict_get k d = None -> dict_get k (rev d) = None.
Proof.
  rewrite !dict_get_None. unfold keys. rewrite map_rev, <- in_rev. auto.
Qed.

(** After [d.update(e)], a key of [e] has the value [e] gives it last, and
    any other key the value it had in [d]. *)
Lemma dict_get_update (k : string) (d e : dict) :
  dict_get k (dict_update d e) =
  match dict_get k (rev e) with
  | Some v => Some v
  | None => dict_get k d
  end.
Proof.
  unfold dict_update. revert d.
  induction e as [|[k0 v0] r IH]; intros d; simpl; auto.
  rewrite IH, dict_get_app. destruct (dict_get k (rev r)); auto.
  simpl. destruct (k0 =? k) eqn:E.
  - apply String.eqb_eq in E. subst. apply dict_get_set_eq.
  - apply String.eqb_neq in E. now apply dict_get_set_neq.
Qed.

Lemma distinct_NoDup (l : list string) : distinct l = true <-> NoDup l.
Proof.
  induction l as [|k r IH]; simpl.
  - split; [constructor | reflexivity].
  - rewrite andb_true_iff, negb_true_iff, IH. split.
    + intros [Hk Hr]. constructor; auto. intros Hin.
      assert (existsb (String.eqb k) r = true)
        by (apply existsb_exists; exists k; split; auto using String.eqb_refl).
      congruence.
    + intros H. inversion H as [|? ? Hk Hr]; subst. split; auto.
      destruct (existsb (String.eqb k) r) eqn:E; auto.
      apply existsb_exists in E as [x [Hx Ex]].
      apply String.eqb_eq in Ex. subst x. contradiction.
Qed.

Lemma keys_set_in (k k' : string) (v : value) (d : dict) :
  In k' (keys (dict_set k v d)) <-> k' = k \/ In k' (keys d).
Proof.
  induction d as [|[k0 v0] r IH]; simpl.
  - intuition.
  - destruct (k0 =? k) eqn:E; simpl.
    + apply String.eqb_eq in E. subst. intuition.
    + rewrite IH. intuition.
Qed.

Lemma NoDup_keys_set (k : string) (v : value) (d : dict) :
  NoDup (keys d) -> NoDup (keys (dict_set k v d)).
Proof.
  induction d as [|[k0 v0] r IH]; simpl; intros H.
  - repeat constructor. simpl. tauto.
  - inversion H as [|? ? Hk Hr]; subst.
    destruct (k0 =? k) eqn:E; simpl.
    + apply String.eqb_eq in E. subst. now constructor.
    + apply String.eqb_neq in E. constructor; auto.
      rewrite keys_set_in. intuition.
Qed.

Lemma NoDup_keys_update (d e : dict) :
  NoDup (keys d) -> NoDup (keys (dict_update d e)).
Proof.
  unfold dict_update. revert d.
  induction e as [|[k v] r IH]; simpl; intros d H; auto.
  apply IH. now apply NoDup_keys_set.
Qed.

(** Whatever the charm supplies, the merged configuration is a dict. *)
Lemma NoDup_keys_merged (m : VsphereStorageManifests) :
  NoDup (keys (merged_config m)).
Proof.
  unfold merged_config. apply NoDup_keys_update.
  assert (H0 : NoDup (keys
    (if Integrator.is_ready (integrator m)
     then [("server", Integrator.vsphere_ip (integrator m));
           ("username", Integrator.user (integrator m));
           ("password", Integrator.password (integrator m));
           ("datacenter", Integrator.datacenter (integrator m))]
     else []))).
  { destruct (Integrator.is_ready (integrator m)).
    - apply distinct_NoDup. reflexivity.
    - constructor. }
  destruct (KubeControl.is_ready (kube_control m)), (control_plane m);
    auto using NoDup_keys_set.
Qed.

(** ** The drop-empty pass and the rename *)

Lemma dict_get_drop_loop (k : string) (l c : dict) :
  dict_get k
    (fold_left
       (fun config kv =>
          if is_empty (snd kv) then dict_del (fst kv) config else config)
       l c) =
  if existsb (fun kv => (fst kv =? k) && is_empty (snd kv)) l then None
  else dict_get k c.
Proof.
  revert c. induction l as [|[k0 v0] r IH]; intros c; simpl; auto.
  rewrite IH. destruct (existsb _ r); [now rewrite orb_true_r|].
  rewrite orb_false_r. destruct (is_empty v0); simpl.
  - destruct (k0 =? k) eqn:E; simpl.
    + apply String.eqb_eq in E. subst. apply dict_get_del_eq.
    + apply String.eqb_neq in E. now apply dict_get_del_neq.
  - now rewrite andb_false_r.
Qed.

Lemma existsb_empty_entry (k : string) (d : dict) :
  NoDup (keys d) ->
  existsb (fun kv => (fst kv =? k) && is_empty (snd kv)) d =
  match dict_get k d with
  | Some v => is_empty v
  | None => false
  end.
Proof.
  induction d as [|[k0 v0] r IH]; simpl; intros H; auto.
  inversion H as [|? ? Hk Hr]; subst.
  destruct (k0 =? k) eqn:E; simpl.
  - apply String.eqb_eq in E. subst.
    apply dict_get_None in Hk. rewrite IH, Hk by assumption.
    apply orb_false_r.
  - now apply IH.
Qed.

(** The pass keeps exactly the entries whose value is neither the empty
    string nor [None]. *)
Lemma dict_get_drop_empty (k : string) (d : dict) :
  NoDup (keys d) ->
  dict_get k (drop_empty d) =
  match dict_get k d with
  | Some v => if is_empty v then None else Some v
  | None => None
  end.
Proof.
  intros H. unfold drop_empty.
  rewrite dict_get_drop_loop, existsb_empty_entry by assumption.
  destruct (dict_get k d) as [v|]; auto.
Qed.

Lemma dict_get_rename_release (k : string) (d : dict) :
  dict_get k (rename_release d) =
  if k =? "release" then
    Some (match dict_get "storage-release" d with
          | Some v => v
          | None => VNone
          end)
  else if k =? "storage-release" then None
  else dict_get k d.
Proof.
  unfold rename_release, dict_pop.
  destruct (k =? "release") eqn:E1.
  - apply String.eqb_eq in E1. subst. apply dict_get_set_eq.
  - apply String.eqb_neq in E1.
    rewrite dict_get_set_neq by congruence.
    destruct (k =? "storage-release") eqn:E2.
    + apply String.eqb_eq in E2. subst. apply dict_get_del_eq.
    + apply String.eqb_neq in E2. apply dict_get_del_neq. congruence.
Qed.

Lemma dict_get_In (k : string) (v : value) (d : dict) :
  dict_get k d = Some v -> In (k, v) d.
Proof.
  induction d as [|[k0 v0] r IH]; simpl; [discriminate|].
  destruct (k0 =? k) eqn:E.
  - apply String.eqb_eq in E. intros [= ->]. subst. now left.
  - auto.
Qed.

Lemma In_dict_get (k : string) (v : value) (d : dict) :
  NoDup (keys d) -> In (k, v) d -> dict_get k d = Some v.
Proof.
  induction d as [|[k0 v0] r IH]; simpl; [tauto|].
  intros H Hin. inversion H as [|? ? Hk Hr]; subst.
  destruct Hin as [[= -> ->]|Hin].
  - now rewrite String.eqb_refl.
  - destruct (k0 =? k) eqn:E; auto.
    apply String.eqb_eq in E. subst k0. exfalso. apply Hk.
    change k with (fst (k, v)). now apply in_map.
Qed.

Lemma dict_get_rev (k : string) (d : dict) :
  NoDup (keys d) -> dict_get k (rev d) = dict_get k d.
Proof.
  intros H.
  assert (Hr : NoDup (keys (rev d))).
  { unfold keys. rewrite map_rev. now apply NoDup_rev. }
  destruct (dict_get k d) as [v|] eqn:E.
  - apply In_dict_get; auto. rewrite <- in_rev. now apply dict_get_In.
  - now apply dict_get_rev_None.
Qed.

(** ** The configuration *)

(** C5.  Whatever the sources hold, the post-processing of [config] first
    removes every key whose value is the empty string or [None] and keeps
    every other entry as it is, then renames [storage-release] to
    [release]: in the result [release] is always present, with the value
    left under [storage-release] and with [None] when none was left,
    [storage-release] is absent, and every other key is as the first pass
    left it. *)
Theorem config_post_process (m : VsphereStorageManifests) (k : string) :
  dict_get k (drop_empty (merged_config m)) =
    match dict_get k (merged_config m) with
    | Some (VStr EmptyString) => None
    | Some VNone => None
    | Some v => Some v
    | None => None
    end /\
  dict_get "release" (config m) =
    Some (match dict_get "storage-release" (drop_empty (merged_config m)) with
          | Some v => v
          | None => VNone
          end) /\
  dict_get "storage-release" (config m) = None /\
  (k <> "release" -> k <> "storage-release" ->
   dict_get k (config m) = dict_get k (drop_empty (merged_config m))).
Proof.
  pose proof (NoDup_keys_merged m) as Hnd.
  split; [|split; [|split]].
  - rewrite dict_get_drop_empty by assumption.
    destruct (dict_get k (merged_config m)) as [v|]; [|reflexivity].
    destruct v as [| | |s| |]; try reflexivity.
    destruct s; reflexivity.
  - unfold config. now rewrite dict_get_rename_release.
  - unfold config. now rewrite dict_get_rename_release.
  - intros Hr Hs. unfold config. rewrite dict_get_rename_release.
    apply String.eqb_neq in Hr, Hs. now rewrite Hr, Hs.
Qed.

(** C9.  When the charm supplies a [release] of its own and no
    [storage-release] survives the drop-empty pass, the charm's value is
    in the configuration before the rename and [None] has taken its place
    after it. *)
Theorem config_release_overwritten (m : VsphereStorageManifests) (v : value) :
  distinct (keys (CharmConfig.available_data (charm_config m))) = true ->
  dict_get "release" (CharmConfig.available_data (charm_config m)) = Some v ->
  is_empty v = false ->
  dict_get "storage-release" (drop_empty (merged_config m)) = None ->
  dict_get "release" (drop_empty (merged_config m)) = Some v /\
  dict_get "release" (config m) = Some VNone.
Proof.
  intros Hd Hrel Hv Hsr. split.
  - rewrite dict_get_drop_empty by apply NoDup_keys_merged.
    unfold merged_config. rewrite dict_get_update.
    rewrite dict_get_rev by now apply distinct_NoDup.
    now rewrite Hrel, Hv.
  - unfold config. rewrite dict_get_rename_release. simpl. now rewrite Hsr.
Qed.

(** ** evaluate *)

Lemma evaluate_loop_first (config : dict) (pre post : list string) (p : string) :
  (forall q, In q pre -> truthy (get config q) = true) ->
  truthy (get config p) = false ->
  evaluate_loop config (pre ++ p :: post)%list =
  Some ("Storage manifests waiting for definition of " ++ p).
Proof.
  intros Hpre Hp. induction pre as [|q pre IH]; simpl.
  - now rewrite Hp.
  - rewrite (Hpre q) by now left. simpl. apply IH.
    intros q' Hq'. apply Hpre. now right.
Qed.

Lemma evaluate_loop_None (config : dict) (ps : list string) :
  evaluate_loop config ps = None <->
  (forall q, In q ps -> truthy (get config q) = true).
Proof.
  induction ps as [|p ps IH]; simpl.
  - split; [intros _ q [] | reflexivity].
  - destruct (truthy (get config p)) eqn:E; simpl.
    + rewrite IH. split.
      * intros H q [<-|Hq]; auto.
      * intros H q Hq. apply H. now right.
    + split; [discriminate|]. intros H.
      specialize (H p (or_introl eq_refl)). congruence.
Qed.

(** C1.  [evaluate] goes through server, username, password, datacenter,
    control-node-selector in this order and returns the message that names
    the first of them whose value is missing or falsy, whatever the later
    ones are; it returns nothing exactly when all five are truthy. *)
Theorem evaluate_first_missing (config : dict) :
  props =
    ["server"; "username"; "password"; "datacenter"; "control-node-selector"] /\
  (forall pre p post,
      props = (pre ++ p :: post)%list ->
      (forall q, In q pre -> truthy (get config q) = true) ->
      truthy (get config p) = false ->
      evaluate_config config =
      Some ("Storage manifests waiting for definition of " ++ p)) /\
  (evaluate_config config = None <->
   forall q, In q props -> truthy (get config q) = true).
Proof.
  split; [reflexivity|]. split.
  - intros pre p post Hsplit Hpre Hp. unfold evaluate_config.
    rewrite Hsplit. now apply evaluate_loop_first.
  - apply evaluate_loop_None.
Qed.

(** ** CreateSecret *)

Lemma get_absent (config : dict) (k : string) :
  dict_get k config = None -> get config k = VNone.
Proof. unfold get. now intros ->. Qed.

(** C4.  When one of server, username, password, datacenter is absent
    from the configuration, [CreateSecret] returns no object. *)
Theorem CreateSecret_absent (repr : value -> string) (config : dict)
    (model_uuid k : string) :
  In k ["server"; "username"; "password"; "datacenter"] ->
  dict_get k config = None ->
  CreateSecret repr config model_uuid = None.
Proof.
  intros Hk Habs. apply get_absent in Habs. unfold CreateSecret.
  assert (E : existsb is_None
                [get config "username"; get config "password";
                 get config "server"; get config "datacenter"] = true).
  { apply existsb_exists. exists VNone. split; [|reflexivity].
    rewrite <- Habs. simpl in Hk |- *.
    destruct Hk as [<-|[<-|[<-|[<-|[]]]]]; tauto. }
  now rewrite E.
Qed.

(** ** Subscripts and assignments *)

Lemma getitem_setitem_eq (v v' x : value) (k : string) :
  setitem v k x = Ok v' -> getitem v' k = Ok x.
Proof.
  destruct v; simpl; try discriminate. intros [= <-]. simpl.
  now rewrite dict_get_set_eq.
Qed.

Lemma getitem_setitem_neq (v v' x : value) (k k' : string) :
  setitem v k x = Ok v' -> k <> k' -> getitem v' k' = getitem v k'.
Proof.
  destruct v; simpl; try discriminate. intros [= <-] Hne. simpl.
  now rewrite dict_get_set_neq.
Qed.

Lemma setitem_path_succeeds (path : list string) (k : string) (x : value) :
  forall (v : value) (d : dict),
    getitem_path v path = Ok (VDict d) ->
    exists v', setitem_path v path k x = Ok v'.
Proof.
  induction path as [|p rest IH]; simpl; intros v d H.
  - injection H as ->. simpl. eauto.
  - destruct (getitem v p) as [inner|e] eqn:E; simpl in *; [|discriminate].
    destruct (IH inner d H) as [inner' ->]. simpl.
    destruct v; simpl in E; try discriminate. simpl. eauto.
Qed.

Lemma getitem_path_app (path1 path2 : list string) :
  forall v : value,
    getitem_path v (path1 ++ path2)%list =
    bind (getitem_path v path1) (fun w => getitem_path w path2).
Proof.
  induction path1 as [|p rest IH]; simpl; intros v; auto.
  destruct (getitem v p); simpl; auto.
Qed.

(** What was assigned is what is read back through the same path. *)
Lemma getitem_setitem_path (path : list string) (k : string) (x : value) :
  forall v v' : value,
    setitem_path v path k x = Ok v' ->
    getitem_path v' (path ++ [k])%list = Ok x.
Proof.
  induction path as [|p rest IH]; simpl; intros v v' H.
  - now rewrite (getitem_setitem_eq _ _ _ _ H).
  - destruct (getitem v p) as [inner|e]; simpl in H; [|discriminate].
    destruct (setitem_path inner rest k x) as [inner'|e] eqn:E;
      simpl in H; [|discriminate].
    rewrite (getitem_setitem_eq _ _ _ _ H). simpl. eauto.
Qed.

(** An assignment below [p] leaves the other entries of the object alone. *)
Lemma getitem_setitem_path_other (p q : string) (rest : list string)
    (k : string) (x v v' : value) :
  setitem_path v (p :: rest) k x = Ok v' -> p <> q ->
  getitem v' q = getitem v q.
Proof.
  simpl. intros H Hne.
  destruct (getitem v p) as [inner|e]; simpl in H; [|discriminate].
  destruct (setitem_path inner rest k x) as [inner'|e];
    simpl in H; [|discriminate].
  now apply (getitem_setitem_neq _ _ _ _ _ H).
Qed.

Lemma setitem_path_cons (p : string) (rest : list string) (k : string)
    (x v : value) :
  setitem_path v (p :: rest) k x =
  bind (getitem v p) (fun inner =>
    bind (setitem_path inner rest k x) (fun inner' => setitem v p inner')).
Proof. reflexivity. Qed.

Lemma getitem_setitem_path_sibling (p1 p2 q2 : string) (rest : list string)
    (k : string) (x v v' : value) :
  setitem_path v (p1 :: p2 :: rest) k x = Ok v' -> p2 <> q2 ->
  getitem_path v' [p1; q2] = getitem_path v [p1; q2].
Proof.
  intros H Hne. rewrite setitem_path_cons in H. cbn [getitem_path].
  destruct (getitem v p1) as [inner|e] eqn:E1; cbn [bind] in H;
    [|discriminate].
  destruct (setitem_path inner (p2 :: rest) k x) as [inner'|e] eqn:E2;
    cbn [bind] in H; [|discriminate].
  rewrite (getitem_setitem_eq _ _ _ _ H). cbn [bind].
  rewrite (getitem_setitem_path_other _ _ _ _ _ _ _ E2 Hne).
  reflexivity.
Qed.

(** An assignment to the entry [k] of a container leaves what is read
    through its other entries alone. *)
Lemma getitem_setitem_path_frame (path : list string) (k q : string)
    (rest : list string) (x : value) :
  forall v v' : value,
    setitem_path v path k x = Ok v' -> k <> q ->
    getitem_path v' (path ++ q :: rest)%list =
    getitem_path v (path ++ q :: rest)%list.
Proof.
  induction path as [|p path IH]; intros v v' H Hne.
  - cbn [app getitem_path]. cbn [setitem_path] in H.
    now rewrite (getitem_setitem_neq _ _ _ _ _ H Hne).
  - rewrite setitem_path_cons in H. cbn [app getitem_path].
    destruct (getitem v p) as [inner|e] eqn:E1; cbn [bind] in H;
      [|discriminate].
    destruct (setitem_path inner path k x) as [inner'|e] eqn:E2;
      cbn [bind] in H; [|discriminate].
    rewrite (getitem_setitem_eq _ _ _ _ H). cbn [bind]. now apply IH.
Qed.

(** ** UpdateDeployment *)

(** C8.  An object whose kind is not Deployment, or whose metadata.name is
    not the controller's, is left as it is by [UpdateDeployment] under
    every configuration; when its kind is some other value, a Service for
    one, the call also returns normally. *)
Theorem UpdateDeployment_other_object (config : dict) (obj : value) :
  get_method obj "kind" <> Ok (VStr "Deployment") \/
  getitem_path obj ["metadata"; "name"] <> Ok (VStr "vsphere-csi-controller") ->
  fst (UpdateDeployment config obj) = obj /\
  (forall kind, get_method obj "kind" = Ok kind -> kind <> VStr "Deployment" ->
                UpdateDeployment config obj = (obj, Ok tt)).
Proof.
  intros Hother. unfold UpdateDeployment, is_controller_deployment.
  destruct (get_method obj "kind") as [kind|e]; cbn [bind].
  - destruct (eq_str kind "Deployment") eqn:Ek.
    + apply eq_str_true in Ek. subst kind. split.
      * destruct Hother as [Hk|Hn]; [congruence|].
        destruct (getitem_path obj ["metadata"; "name"]) as [name|e];
          cbn [bind]; auto.
        destruct (eq_str name "vsphere-csi-controller") eqn:En; auto.
        apply eq_str_true in En. congruence.
      * intros kind [= <-] Hk. congruence.
    + split; auto.
  - split; auto. discriminate.
Qed.

Lemma controller_deployment_selector (config : dict) (obj : value)
    (sel ps : dict) :
  is_controller_deployment obj = Ok true ->
  get config "control-node-selector" = VDict sel ->
  getitem_path obj ["spec"; "template"; "spec"] = Ok (VDict ps) ->
  exists obj1,
    setitem_path obj ["spec"; "template"; "spec"] "nodeSelector" (VDict sel)
      = Ok obj1 /\
    getitem_path obj1 ["spec"; "template"; "spec"; "nodeSelector"]
      = Ok (VDict sel) /\
    getitem_path obj1 ["spec"; "replicas"] = getitem_path obj ["spec"; "replicas"] /\
    UpdateDeployment config obj =
      if negb (truthy (get config "replicas")) then
        match getitem_path obj1 ["spec"; "replicas"] with
        | Raise e => (obj1, Raise e)
        | Ok _ => (obj1, Ok tt)
        end
      else
        match setitem_path obj1 ["spec"] "replicas" (get config "replicas") with
        | Raise e => (obj1, Raise e)
        | Ok obj2 => (obj2, Ok tt)
        end.
Proof.
  intros Hctl Hsel Hshape.
  destruct (setitem_path_succeeds _ "nodeSelector" (VDict sel) _ _ Hshape)
    as [obj1 Hset].
  exists obj1. split; [assumption|]. split.
  - apply (getitem_setitem_path ["spec"; "template"; "spec"] _ _ _ _ Hset).
  - split.
    + apply (getitem_setitem_path_sibling _ _ _ _ _ _ _ _ Hset). discriminate.
    + unfold UpdateDeployment. rewrite Hctl, Hsel. cbn [is_dict negb].
      now rewrite Hset.
Qed.

(** C7.  For the controller Deployment and a configuration whose
    control-node-selector is a mapping: with a truthy replicas, 3 for one,
    [UpdateDeployment] sets spec.template.spec.nodeSelector to the mapping
    and spec.replicas to that count; with replicas absent it sets the node
    selector and spec.replicas stays what it was. *)
Theorem UpdateDeployment_controller (config : dict) (obj : value)
    (sel ps : dict) :
  is_controller_deployment obj = Ok true ->
  getitem_path obj ["spec"; "template"; "spec"] = Ok (VDict ps) ->
  get config "control-node-selector" = VDict sel ->
  let obj' := fst (UpdateDeployment config obj) in
  getitem_path obj' ["spec"; "template"; "spec"; "nodeSelector"]
    = Ok (VDict sel) /\
  (truthy (get config "replicas") = true ->
   snd (UpdateDeployment config obj) = Ok tt /\
   getitem_path obj' ["spec"; "replicas"] = Ok (get config "replicas")) /\
  (dict_get "replicas" config = None ->
   getitem_path obj' ["spec"; "replicas"] = getitem_path obj ["spec"; "replicas"]).
Proof.
  intros Hctl Hshape Hsel obj'. subst obj'.
  destruct (controller_deployment_selector _ _ _ _ Hctl Hsel Hshape)
    as (obj1 & Hset & Hns & Hrep & ->).
  assert (Hspec : exists ds, getitem_path obj1 ["spec"] = Ok (VDict ds)).
  { change ["spec"; "template"; "spec"; "nodeSelector"]
      with (["spec"] ++ ["template"; "spec"; "nodeSelector"])%list in Hns.
    rewrite getitem_path_app in Hns.
    destruct (getitem_path obj1 ["spec"]) as [[]|] eqn:E; try discriminate.
    eauto. }
  destruct Hspec as [ds Hspec].
  destruct (setitem_path_succeeds _ "replicas" (get config "replicas") _ _ Hspec)
    as [obj2 Hset2].
  destruct (truthy (get config "replicas")) eqn:Et; cbn [negb].
  - rewrite Hset2. cbn [fst snd]. repeat split.
    + rewrite <- Hns.
      apply (getitem_setitem_path_frame ["spec"] "replicas" "template"
               ["spec"; "nodeSelector"] _ _ _ Hset2).
      discriminate.
    + apply (getitem_setitem_path ["spec"] _ _ _ _ Hset2).
    + intros Habs. apply get_absent in Habs. rewrite Habs in Et. discriminate.
  - assert (E : fst (match getitem_path obj1 ["spec"; "replicas"] with
                     | Ok _ => (obj1, Ok tt)
                     | Raise e => (obj1, Raise e)
                     end) = obj1)
      by now destruct (getitem_path obj1 ["spec"; "replicas"]).
    rewrite E. split; [assumption|]. split; [discriminate|]. now intros _.
Qed.

(** With a falsy replicas in the configuration, spec.replicas reads the
    same after the call as before, whatever the object. *)
Lemma UpdateDeployment_falsy_replicas (config : dict) (obj : value) :
  truthy (get config "replicas") = false ->
  getitem_path (fst (UpdateDeployment config obj)) ["spec"; "replicas"] =
  getitem_path obj ["spec"; "replicas"].
Proof.
  intros Et. unfold UpdateDeployment.
  destruct (is_controller_deployment obj) as [[|]|e]; auto.
  destruct (is_dict (get config "control-node-selector")); cbn [negb]; auto.
  destruct (setitem_path obj ["spec"; "template"; "spec"] "nodeSelector"
              (get config "control-node-selector")) as [obj1|e] eqn:Hset; auto.
  rewrite Et. cbn [negb].
  assert (E : fst (match getitem_path obj1 ["spec"; "replicas"] with
                   | Ok _ => (obj1, Ok tt)
                   | Raise e => (obj1, Raise e)
                   end) = obj1)
    by now destruct (getitem_path obj1 ["spec"; "replicas"]).
  rewrite E.
  apply (getitem_setitem_path_sibling _ _ _ _ _ _ _ _ Hset). discriminate.
Qed.

(** C6, as the code has it.  On the controller Deployment the node selector
    is set before the replica count is looked at, so a missing or falsy
    count does not keep the node selector from being set; but a
    control-node-selector that is not a mapping ends the call at once, and
    the object, its replica count included, stays as it was. *)
Theorem UpdateDeployment_selector_first (config : dict) (obj : value) :
  is_controller_deployment obj = Ok true ->
  (forall sel ps,
      get config "control-node-selector" = VDict sel ->
      getitem_path obj ["spec"; "template"; "spec"] = Ok (VDict ps) ->
      truthy (get config "replicas") = false ->
      getitem_path (fst (UpdateDeployment config obj))
        ["spec"; "template"; "spec"; "nodeSelector"] = Ok (VDict sel)) /\
  (is_dict (get config "control-node-selector") = false ->
   UpdateDeployment config obj = (obj, Ok tt)).
Proof.
  intros Hctl. split.
  - intros sel ps Hsel Hshape Et.
    destruct (controller_deployment_selector _ _ _ _ Hctl Hsel Hshape)
      as (obj1 & Hset & Hns & Hrep & ->).
    rewrite Et. cbn [negb].
    now destruct (getitem_path obj1 ["spec"; "replicas"]).
  - intros Hnd. unfold UpdateDeployment. now rewrite Hctl, Hnd.
Qed.

(** C10, as the code has it.  With the control-plane relation present,
    no unit related and no replicas among the charm's own values, the
    configuration holds replicas = 0, which the drop-empty pass keeps; and
    [UpdateDeployment], taking 0 for falsy, leaves spec.replicas of any
    object as it was. *)
Theorem zero_units_keep_replicas (m : VsphereStorageManifests)
    (rel : Relation.t) (obj : value) :
  control_plane m = Some rel ->
  Relation.units rel = [] ->
  dict_get "replicas" (CharmConfig.available_data (charm_config m)) = None ->
  dict_get "replicas" (config m) = Some (VInt 0) /\
  getitem_path (fst (UpdateDeployment (config m) obj)) ["spec"; "replicas"] =
  getitem_path obj ["spec"; "replicas"].
Proof.
  intros Hcp Hunits Hcharm.
  assert (H0 : dict_get "replicas" (config m) = Some (VInt 0)).
  { unfold config. rewrite dict_get_rename_release. cbn [String.eqb Ascii.eqb
      Bool.eqb].
    rewrite dict_get_drop_empty by apply NoDup_keys_merged.
    unfold merged_config.
    rewrite dict_get_update, (dict_get_rev_None _ _ Hcharm), Hcp, Hunits.
    cbn [length Z.of_nat]. now rewrite dict_get_set_eq. }
  split; [assumption|].
  apply UpdateDeployment_falsy_replicas. unfold get. now rewrite H0.
Qed.

(** ** Sorting the items of a dict *)

Lemma leb_trans (a b c : string) :
  String.leb a b = true -> String.leb b c = true -> String.leb a c = true.
Proof.
  unfold String.leb.
  destruct (String.compare a b) eqn:Eab; try discriminate;
    destruct (String.compare b c) eqn:Ebc; try discriminate; intros _ _.
  - apply String.compare_eq_iff in Eab. subst. now rewrite Ebc.
  - apply String.compare_eq_iff in Eab. subst. now rewrite Ebc.
  - apply String.compare_eq_iff in Ebc. subst. now rewrite Eab.
  - apply String_as_OT.cmp_lt in Eab, Ebc.
    pose proof (String_as_OT.lt_trans _ _ _ Eab Ebc) as Hac.
    apply String_as_OT.cmp_lt in Hac. unfold String_as_OT.cmp in Hac.
    now rewrite Hac.
Qed.

Lemma leb_false_flip (a b : string) :
  String.leb a b = false -> String.leb b a = true.
Proof.
  intros H. destruct (String.leb_total a b); congruence.
Qed.

Lemma leb_true_flip (a b : string) :
  a <> b -> String.leb a b = true -> String.leb b a = false.
Proof.
  intros Hne H. destruct (String.leb b a) eqn:E; auto.
  exfalso. apply Hne. now apply String.leb_antisym.
Qed.

(** Two items of distinct keys go into a list in either order. *)
Lemma insert_item_swap {A : Type} (x y : string * A) (l : list (string * A)) :
  fst x <> fst y ->
  insert_item x (insert_item y l) = insert_item y (insert_item x l).
Proof.
  intros Hne.
  induction l as [|a r IH]; simpl.
  - destruct (String.leb (fst x) (fst y)) eqn:E1.
    + now rewrite (leb_true_flip _ _ Hne E1).
    + now rewrite (leb_false_flip _ _ E1).
  - destruct (String.leb (fst y) (fst a)) eqn:Eya;
      destruct (String.leb (fst x) (fst a)) eqn:Exa; simpl.
    + destruct (String.leb (fst x) (fst y)) eqn:E1.
      * rewrite (leb_true_flip _ _ Hne E1). simpl. now rewrite Eya.
      * rewrite (leb_false_flip _ _ E1). simpl. now rewrite Exa.
    + destruct (String.leb (fst x) (fst y)) eqn:E1.
      * rewrite (leb_trans _ _ _ E1 Eya) in Exa. discriminate.
      * simpl. rewrite Exa, Eya. reflexivity.
    + destruct (String.leb (fst y) (fst x)) eqn:E2.
      * rewrite (leb_trans _ _ _ E2 Exa) in Eya. discriminate.
      * simpl. rewrite Exa, Eya. reflexivity.
    + rewrite Exa, Eya. now rewrite IH.
Qed.

(** [sorted] does not depend on the order the items come in. *)
Lemma sort_items_perm {A : Type} (l l' : list (string * A)) :
  Permutation l l' -> NoDup (map fst l) -> sort_items l = sort_items l'.
Proof.
  induction 1 as [|x l l' Hp IH|x y l|l l' l'' Hp1 IH1 Hp2 IH2];
    intros Hnd; simpl.
  - reflexivity.
  - inversion Hnd; subst. now rewrite IH.
  - apply insert_item_swap. simpl in Hnd.
    inversion Hnd as [|? ? Hy Hr]; subst. intros E. apply Hy. now left.
  - rewrite IH1 by assumption. apply IH2.
    apply (Permutation_NoDup (Permutation_map fst Hp1) Hnd).
Qed.

(** ** The fingerprint *)

Lemma forallb_perm {A : Type} (f : A -> bool) (l l' : list A) :
  Permutation l l' -> forallb f l = true -> forallb f l' = true.
Proof.
  intros Hp H. apply forallb_forall. intros x Hx.
  rewrite forallb_forall in H. apply H.
  apply (Permutation_in _ (Permutation_sym Hp) Hx).
Qed.

Lemma dumps_same_content (v v' : value) :
  same_content v v' -> wf_value v = true -> dumps v = dumps v'.
Proof.
  intros H. revert v v' H.
  apply (same_content_mut
    (fun v v' => wf_value v = true -> dumps v = dumps v')
    (fun l l' => forallb wf_value l = true -> map dumps l = map dumps l')
    (fun d d' =>
       forallb (fun kv => wf_value (snd kv)) d = true ->
       map (fun kv => (fst kv, dumps (snd kv))) d =
       map (fun kv => (fst kv, dumps (snd kv))) d')).
  - reflexivity.
  - reflexivity.
  - reflexivity.
  - reflexivity.
  - intros l l' _ IH Hwf. cbn [dumps]. cbn [wf_value] in Hwf.
    now rewrite IH.
  - intros d e d' Hp _ IH Hwf. cbn [dumps]. cbn [wf_value] in Hwf.
    apply andb_true_iff in Hwf as [Hk Hv].
    rewrite <- (IH (forallb_perm _ _ _ Hp Hv)).
    rewrite (sort_items_perm _ _
               (Permutation_map (fun kv => (fst kv, dumps (snd kv))) Hp)).
    + reflexivity.
    + rewrite map_map. cbn [fst]. now apply distinct_NoDup.
  - reflexivity.
  - intros v v' l l' _ IHv _ IHl Hwf. cbn [forallb] in Hwf.
    apply andb_true_iff in Hwf as [Hv Hl]. cbn [map].
    now rewrite IHv, IHl.
  - reflexivity.
  - intros k v v' d d' _ IHv _ IHd Hwf. cbn [forallb snd] in Hwf.
    apply andb_true_iff in Hwf as [Hv Hd]. cbn [map fst snd].
    now rewrite IHv, IHd.
Qed.

(** C2.  Two configurations holding the same key-value pairs, with the keys
    inserted in different orders at any depth, have the same hash. *)
Theorem hash_order_independent (C C' : dict) :
  wf_value (VDict C) = true ->
  same_content (VDict C) (VDict C') ->
  hash_config C = hash_config C'.
Proof.
  intros Hwf Hsame. unfold hash_config.
  now rewrite (dumps_same_content _ _ Hsame Hwf).
Qed.

(** ** Base64 *)

Lemma list_ind3 {A : Type} (P : list A -> Prop) :
  P [] -> (forall x, P [x]) -> (forall x y, P [x; y]) ->
  (forall x y z r, P r -> P (x :: y :: z :: r)) ->
  forall l, P l.
Proof.
  intros H0 H1 H2 H3 l.
  enough (H : P l /\ (forall x, P (x :: l)) /\ (forall x y, P (x :: y :: l)))
    by apply H.
  induction l as [|a l (IH0 & IH1 & IH2)]; repeat split; auto.
Qed.

Lemma index_char (i : N) :
  (i < 64)%N ->
  Base64.index (Base64.char i) = Some i /\
  Byte.eqb (Base64.char i) Base64.pad = false.
Proof.
  intros Hi. destruct i as [|p]; [split; reflexivity|].
  do 6 (destruct p as [p|p|]; try (split; reflexivity));
    exfalso; unfold N.lt in Hi; cbn in Hi; destruct p; discriminate Hi.
Qed.

Lemma byte_of_to_N (x : byte) : Base64.byte_of_N (Byte.to_N x) = x.
Proof. unfold Base64.byte_of_N. now rewrite Byte.of_to_N. Qed.

Lemma b64decode_b64encode (bs : bytes) :
  Base64.b64decode (Base64.b64encode bs) = Some bs.
Proof.
  induction bs as [|x|x y|x y z r IH] using list_ind3.
  - reflexivity.
  - pose proof (Byte.to_N_bounded x) as Hx.
    cbn [Base64.b64encode Base64.b64decode].
    destruct (index_char (Byte.to_N x / 4)) as [-> _]; [divlia|].
    destruct (index_char (Byte.to_N x mod 4 * 16)) as [-> _]; [divlia|].
    cbn [Byte.eqb].
    replace (Byte.to_N x / 4 * 4 + Byte.to_N x mod 4 * 16 / 16)%N
      with (Byte.to_N x) by divlia.
    now rewrite byte_of_to_N.
  - pose proof (Byte.to_N_bounded x) as Hx.
    pose proof (Byte.to_N_bounded y) as Hy.
    cbn [Base64.b64encode Base64.b64decode].
    destruct (index_char (Byte.to_N x / 4)) as [-> _]; [divlia|].
    destruct (index_char (Byte.to_N x mod 4 * 16 + Byte.to_N y / 16))
      as [-> _]; [divlia|].
    destruct (index_char (Byte.to_N y mod 16 * 4)) as [-> ->]; [divlia|].
    replace (Byte.eqb Base64.pad Base64.pad) with true by reflexivity.
    replace (Byte.to_N x / 4 * 4 +
             (Byte.to_N x mod 4 * 16 + Byte.to_N y / 16) / 16)%N
      with (Byte.to_N x) by divlia.
    replace ((Byte.to_N x mod 4 * 16 + Byte.to_N y / 16) mod 16 * 16 +
             Byte.to_N y mod 16 * 4 / 4)%N
      with (Byte.to_N y) by divlia.
    now rewrite !byte_of_to_N.
  - pose proof (Byte.to_N_bounded x) as Hx.
    pose proof (Byte.to_N_bounded y) as Hy.
    pose proof (Byte.to_N_bounded z) as Hz.
    cbn [Base64.b64encode Base64.b64decode].
    destruct (index_char (Byte.to_N x / 4)) as [-> _]; [divlia|].
    destruct (index_char (Byte.to_N x mod 4 * 16 + Byte.to_N y / 16))
      as [-> _]; [divlia|].
    destruct (index_char (Byte.to_N y mod 16 * 4 + Byte.to_N z / 64))
      as [-> ->]; [divlia|].
    destruct (index_char (Byte.to_N z mod 64)) as [-> ->]; [divlia|].
    rewrite IH.
    replace (Byte.to_N x / 4 * 4 +
             (Byte.to_N x mod 4 * 16 + Byte.to_N y / 16) / 16)%N
      with (Byte.to_N x) by divlia.
    replace ((Byte.to_N x mod 4 * 16 + Byte.to_N y / 16) mod 16 * 16 +
             (Byte.to_N y mod 16 * 4 + Byte.to_N z / 64) / 4)%N
      with (Byte.to_N y) by divlia.
    replace ((Byte.to_N y mod 16 * 4 + Byte.to_N z / 64) mod 4 * 64 +
             Byte.to_N z mod 64)%N
      with (Byte.to_N z) by divlia.
    now rewrite !byte_of_to_N.
Qed.

(** ** The blob settles its values *)

Lemma append_assoc (a b c : string) : (a ++ b) ++ c = a ++ b ++ c.
Proof. induction a as [|x a IH]; simpl; congruence. Qed.

Lemma length_append (a b : string) :
  String.length (a ++ b) = (String.length a + String.length b)%nat.
Proof. induction a as [|x a IH]; simpl; congruence. Qed.

Lemma append_inv_head (a b c : string) : a ++ b = a ++ c -> b = c.
Proof. induction a as [|x a IH]; simpl; [auto | intros [= H]; auto]. Qed.

Lemma append_inv_tail (c a b : string) : a ++ c = b ++ c -> a = b.
Proof.
  revert b. induction a as [|x a IH]; intros [|y b] H; simpl in H.
  - reflexivity.
  - apply (f_equal String.length) in H. simpl in H.
    rewrite length_append in H. lia.
  - apply (f_equal String.length) in H. simpl in H.
    rewrite length_append in H. lia.
  - injection H as -> H. f_equal. now apply IH.
Qed.

(** Two texts that agree, each starting with a line that holds no line
    feed: the lines agree and so do the remainders. *)
Lemma first_line_inj (a a' r r' : string) :
  no_newline a = true -> no_newline a' = true ->
  a ++ nl ++ r = a' ++ nl ++ r' -> a = a' /\ r = r'.
Proof.
  revert a'. induction a as [|x a IH]; intros [|y a'] Ha Ha' H;
    simpl in Ha, Ha', H.
  - injection H as H. now split.
  - injection H as <- _. discriminate Ha'.
  - injection H as -> _. discriminate Ha.
  - injection H as -> H.
    apply andb_true_iff in Ha as [_ Ha], Ha' as [_ Ha'].
    destruct (IH a' Ha Ha' H) as [-> ->]. now split.
Qed.

Lemma no_newline_app (a b : string) :
  no_newline (a ++ b) = no_newline a && no_newline b.
Proof.
  induction a as [|x a IH]; simpl; auto. rewrite IH. apply andb_assoc.
Qed.

(** A quoted value that closes a line: the value and what follows the line
    are settled by the text. *)
Lemma quoted_line_inj (v v' close r r' : string) :
  no_newline v = true -> no_newline v' = true -> no_newline close = true ->
  v ++ close ++ nl ++ r = v' ++ close ++ nl ++ r' -> v = v' /\ r = r'.
Proof.
  intros Hv Hv' Hc H.
  rewrite <- (append_assoc v close), <- (append_assoc v' close) in H.
  apply first_line_inj in H as [H ->];
    try (rewrite no_newline_app, Hc; now rewrite ?Hv, ?Hv').
  split; [|reflexivity]. now apply append_inv_tail in H.
Qed.

Ltac same_head H := repeat apply append_inv_head in H.

(** The text of lines 68-78 settles the model uuid and the four values,
    when the model uuid, the server, the user and the password hold no
    line feed. *)
Lemma secret_config_inj (repr : value -> string)
    (model_uuid user passwd server datacenter : string)
    (model_uuid' user' passwd' server' datacenter' : string) :
  no_newline model_uuid = true -> no_newline server = true ->
  no_newline user = true -> no_newline passwd = true ->
  no_newline model_uuid' = true -> no_newline server' = true ->
  no_newline user' = true -> no_newline passwd' = true ->
  secret_config repr model_uuid' (VStr user') (VStr passwd') (VStr server')
    (VStr datacenter') =
  secret_config repr model_uuid (VStr user) (VStr passwd) (VStr server)
    (VStr datacenter) ->
  model_uuid' = model_uuid /\ server' = server /\ user' = user /\
  passwd' = passwd /\ datacenter' = datacenter.
Proof.
  intros Nm Ns Nu Np Nm' Ns' Nu' Np' H.
  unfold secret_config in H. cbn [str] in H.
  same_head H.
  apply quoted_line_inj in H as [-> H]; [|assumption || reflexivity ..].
  same_head H.
  apply (quoted_line_inj _ _ (dq ++ "]")) in H as [-> H];
    [|assumption || reflexivity ..].
  same_head H.
  apply quoted_line_inj in H as [-> H]; [|assumption || reflexivity ..].
  same_head H.
  apply quoted_line_inj in H as [-> H]; [|assumption || reflexivity ..].
  same_head H.
  apply append_inv_tail in H as ->.
  repeat split.
Qed.

(** The object of a secret settles the text it was built from. *)
Lemma secret_payload_inj (a b : string) :
  decode (Base64.b64encode (encode a)) = decode (Base64.b64encode (encode b)) ->
  a = b.
Proof.
  unfold encode, decode. intros H.
  apply (f_equal list_byte_of_string) in H.
  rewrite !list_byte_of_string_of_list_byte in H.
  apply (f_equal Base64.b64decode) in H.
  rewrite !b64decode_b64encode in H. injection H as H.
  apply (f_equal string_of_list_byte) in H.
  now rewrite !string_of_list_byte_of_string in H.
Qed.

(** C3, as the code has it.  When server, username, password and
    datacenter are present as strings, [CreateSecret] returns a secret
    whose payload, decoded as base64 and then as UTF-8, is the text below:
    the model uuid as cluster-id under [[Global]] and the four values, each
    as written, between the double quotes of its line.  When moreover the
    model uuid, the server, the user and the password hold no line feed,
    the secret settles all five: model uuid and configuration of the same
    kind that give the same secret hold the same five values. *)
Theorem CreateSecret_values_settled (repr : value -> string) (config : dict)
    (model_uuid server user passwd datacenter : string) :
  dict_get "server" config = Some (VStr server) ->
  dict_get "username" config = Some (VStr user) ->
  dict_get "password" config = Some (VStr passwd) ->
  dict_get "datacenter" config = Some (VStr datacenter) ->
  exists obj payload,
    CreateSecret repr config model_uuid = Some obj /\
    getitem_path obj ["data"; SECRET_DATA] = Ok (VStr payload) /\
    option_map decode (Base64.b64decode (encode payload)) =
    Some ("[Global]" ++ nl ++
          "cluster-id = " ++ dq ++ model_uuid ++ dq ++ nl ++
          nl ++
          "[VirtualCenter " ++ dq ++ server ++ dq ++ "]" ++ nl ++
          "insecure-flag = " ++ dq ++ "true" ++ dq ++ nl ++
          "user = " ++ dq ++ user ++ dq ++ nl ++
          "password = " ++ dq ++ passwd ++ dq ++ nl ++
          "port = " ++ dq ++ "443" ++ dq ++ nl ++
          "datacenters = " ++ dq ++ datacenter ++ dq ++ nl) /\
    (no_newline model_uuid = true -> no_newline server = true ->
     no_newline user = true -> no_newline passwd = true ->
     forall (config' : dict)
            (model_uuid' server' user' passwd' datacenter' : string),
       dict_get "server" config' = Some (VStr server') ->
       dict_get "username" config' = Some (VStr user') ->
       dict_get "password" config' = Some (VStr passwd') ->
       dict_get "datacenter" config' = Some (VStr datacenter') ->
       no_newline model_uuid' = true -> no_newline server' = true ->
       no_newline user' = true -> no_newline passwd' = true ->
       CreateSecret repr config' model_uuid' = Some obj ->
       model_uuid' = model_uuid /\ server' = server /\ user' = user /\
       passwd' = passwd /\ datacenter' = datacenter).
Proof.
  intros Hs Hu Hp Hd.
  unfold CreateSecret, get. rewrite Hs, Hu, Hp, Hd. cbn [existsb is_None orb].
  exists (VDict
    [ ("apiVersion", VStr "v1"); ("kind", VStr "Secret");
      ("type", VStr "Opaque");
      ("metadata", VDict [("name", VStr SECRET_NAME)]);
      ("data",
       VDict [(SECRET_DATA,
               VStr (decode (Base64.b64encode (encode
                 (secret_config repr model_uuid (VStr user) (VStr passwd)
                    (VStr server) (VStr datacenter))))))]) ]).
  exists (decode (Base64.b64encode (encode
            (secret_config repr model_uuid (VStr user) (VStr passwd)
               (VStr server) (VStr datacenter))))).
  split; [reflexivity|]. split; [reflexivity|]. split.
  - unfold encode, decode.
    rewrite list_byte_of_string_of_list_byte, b64decode_b64encode.
    cbn [option_map]. now rewrite string_of_list_byte_of_string.
  - intros Nm Ns Nu Np config' model_uuid' server' user' passwd' datacenter'
      Hs' Hu' Hp' Hd' Nm' Ns' Nu' Np'.
    rewrite Hs', Hu', Hp', Hd'. cbn [existsb is_None orb].
    intros H.
    remember (decode (Base64.b64encode (encode
                (secret_config repr model_uuid' (VStr user') (VStr passwd')
                   (VStr server') (VStr datacenter'))))) as p' eqn:E'.
    remember (decode (Base64.b64encode (encode
                (secret_config repr model_uuid (VStr user) (VStr passwd)
                   (VStr server) (VStr datacenter))))) as p eqn:E.
    injection H as H. rewrite E, E' in H.
    apply secret_payload_inj in H.
    now apply (secret_config_inj repr) in H.
Qed.

(** * The properties on sample data *)

(** The embedding evaluated: the hash of [config_nested] is the number
    Python gives for the same dict, and it is that of the reordered dict. *)
Example hash_config_nested_value :
  hash_config config_nested = 82957963386877107255195653281292678773%Z /\
  hash_config config_nested_reordered
  = 82957963386877107255195653281292678773%Z.
Proof. split; vm_compute; reflexivity. Qed.

Example dumps_config_nested :
  dumps (VDict config_nested_reordered) =
  "{" ++ dq ++ "control-node-selector" ++ dq ++ ": {" ++
  dq ++ "juju-application" ++ dq ++ ": " ++ dq ++ "app1" ++ dq ++ ", " ++
  dq ++ "zone" ++ dq ++ ": " ++ dq ++ "a" ++ dq ++ "}, " ++
  dq ++ "replicas" ++ dq ++ ": 3, " ++
  dq ++ "server" ++ dq ++ ": " ++ dq ++ "10.0.0.1" ++ dq ++ "}".
Proof. vm_compute. reflexivity. Qed.

Example md5_abc :
  MD5.hexdigest (encode "abc") = "900150983cd24fb0d6963f7d28e17f72".
Proof. vm_compute. reflexivity. Qed.

Example b64encode_hello :
  decode (Base64.b64encode (encode "hello world")) = "aGVsbG8gd29ybGQ=".
Proof. vm_compute. reflexivity. Qed.

Example config_zero_units :
  config sources_zero_units =
  [ ("server", VStr "10.0.0.1"); ("username", VStr "admin");
    ("password", VStr "secret"); ("datacenter", VStr "dc1");
    ("control-node-selector",
     VDict [("juju-application", VStr "kubernetes-control-plane")]);
    ("replicas", VInt 0); ("release", VNone) ].
Proof. reflexivity. Qed.

Lemma evaluate_first_missing_server :
  truthy (get config_without_server "server") = false /\
  evaluate_config config_without_server =
  Some "Storage manifests waiting for definition of server".
Proof.
  split; [reflexivity|].
  apply (proj1 (proj2 (evaluate_first_missing config_without_server))
           [] "server"
           ["username"; "password"; "datacenter"; "control-node-selector"]).
  - reflexivity.
  - intros q [].
  - reflexivity.
Defined.

Lemma hash_order_independent_nested :
  wf_value (VDict config_nested) = true /\
  same_content (VDict config_nested) (VDict config_nested_reordered) /\
  hash_config config_nested = hash_config config_nested_reordered.
Proof.
  assert (Hsame : same_content (VDict config_nested)
                    (VDict config_nested_reordered)).
  { apply same_Dict with
      (e := [ ("control-node-selector",
               VDict [("juju-application", VStr "app1"); ("zone", VStr "a")]);
              ("server", VStr "10.0.0.1");
              ("replicas", VInt 3) ]).
    - apply perm_swap.
    - repeat constructor.
      apply same_Dict with
        (e := [("zone", VStr "a"); ("juju-application", VStr "app1")]).
      + apply perm_swap.
      + repeat constructor. }
  split; [reflexivity|]. split; [exact Hsame|].
  apply hash_order_independent; [reflexivity | exact Hsame].
Defined.

Lemma CreateSecret_values_settled_quote :
  exists obj payload,
    CreateSecret no_repr config_quoted_password "0b5e3c1a-model" = Some obj /\
    getitem_path obj ["data"; SECRET_DATA] = Ok (VStr payload) /\
    option_map decode (Base64.b64decode (encode payload)) =
    Some ("[Global]" ++ nl ++
          "cluster-id = " ++ dq ++ "0b5e3c1a-model" ++ dq ++ nl ++
          nl ++
          "[VirtualCenter " ++ dq ++ "10.0.0.1" ++ dq ++ "]" ++ nl ++
          "insecure-flag = " ++ dq ++ "true" ++ dq ++ nl ++
          "user = " ++ dq ++ "admin" ++ dq ++ nl ++
          "password = " ++ dq ++ "p" ++ dq ++ "w" ++ dq ++ nl ++
          "port = " ++ dq ++ "443" ++ dq ++ nl ++
          "datacenters = " ++ dq ++ "dc1" ++ dq ++ nl) /\
    forall (config' : dict)
           (model_uuid' server' user' passwd' datacenter' : string),
      dict_get "server" config' = Some (VStr server') ->
      dict_get "username" config' = Some (VStr user') ->
      dict_get "password" config' = Some (VStr passwd') ->
      dict_get "datacenter" config' = Some (VStr datacenter') ->
      no_newline model_uuid' = true -> no_newline server' = true ->
      no_newline user' = true -> no_newline passwd' = true ->
      CreateSecret no_repr config' model_uuid' = Some obj ->
      model_uuid' = "0b5e3c1a-model" /\ server' = "10.0.0.1" /\
      user' = "admin" /\ passwd' = "p" ++ dq ++ "w" /\ datacenter' = "dc1".
Proof.
  destruct (CreateSecret_values_settled no_repr config_quoted_password
              "0b5e3c1a-model" "10.0.0.1" "admin" ("p" ++ dq ++ "w") "dc1")
    as (obj & payload & H1 & H2 & H3 & H4); try reflexivity.
  exists obj, payload.
  split; [exact H1|]. split; [exact H2|]. split; [exact H3|].
  exact (H4 eq_refl eq_refl eq_refl eq_refl).
Defined.

(** At [config_split_a] and [config_split_b] all four values are present
    and a secret is returned, the two secrets are the same object, and the
    passwords differ, as the datacenters do: whatever reads the secret, it
    cannot give back the password of both. *)
Lemma CreateSecret_not_read_back :
  CreateSecret no_repr config_split_a "0b5e3c1a-model" =
  CreateSecret no_repr config_split_b "0b5e3c1a-model" /\
  CreateSecret no_repr config_split_a "0b5e3c1a-model" <> None /\
  get config_split_a "password" <> get config_split_b "password" /\
  get config_split_a "datacenter" <> get config_split_b "datacenter" /\
  forall read : option value -> value,
    ~ (read (CreateSecret no_repr config_split_a "0b5e3c1a-model")
       = get config_split_a "password" /\
       read (CreateSecret no_repr config_split_b "0b5e3c1a-model")
       = get config_split_b "password").
Proof.
  assert (E : CreateSecret no_repr config_split_a "0b5e3c1a-model" =
              CreateSecret no_repr config_split_b "0b5e3c1a-model")
    by (vm_compute; reflexivity).
  split; [exact E|].
  split; [vm_compute; discriminate|].
  split; [vm_compute; discriminate|].
  split; [vm_compute; discriminate|].
  intros read [Ha Hb]. rewrite E, Hb in Ha.
  revert Ha. vm_compute. discriminate.
Qed.

Lemma CreateSecret_absent_server :
  dict_get "server" config_without_server = None /\
  CreateSecret no_repr config_without_server "0b5e3c1a-model" = None.
Proof.
  split; [reflexivity|].
  apply (CreateSecret_absent no_repr config_without_server _ "server").
  - simpl. tauto.
  - reflexivity.
Defined.

Lemma config_post_process_release :
  dict_get "username" (merged_config sources_empty_values)
    = Some (VStr EmptyString) /\
  dict_get "password" (merged_config sources_empty_values) = Some VNone /\
  dict_get "image-registry" (merged_config sources_empty_values)
    = Some (VStr EmptyString) /\
  dict_get "username" (drop_empty (merged_config sources_empty_values))
    = None /\
  dict_get "password" (drop_empty (merged_config sources_empty_values))
    = None /\
  dict_get "image-registry" (config sources_empty_values) = None /\
  dict_get "server" (config sources_empty_values) = Some (VStr "10.0.0.1") /\
  dict_get "release" (config sources_empty_values) = Some (VStr "1.2.3") /\
  dict_get "storage-release" (config sources_empty_values) = None.
Proof.
  destruct (config_post_process sources_empty_values "username") as (Hu & _).
  destruct (config_post_process sources_empty_values "password") as (Hp & _).
  destruct (config_post_process sources_empty_values "image-registry")
    as (Hi1 & _ & _ & Hi2).
  destruct (config_post_process sources_empty_values "server")
    as (Hs1 & Hrel & Hsr & Hs2).
  split; [reflexivity|]. split; [reflexivity|]. split; [reflexivity|].
  split; [exact Hu|]. split; [exact Hp|].
  split; [rewrite Hi2 by discriminate; exact Hi1|].
  split; [rewrite Hs2 by discriminate; exact Hs1|].
  split; [exact Hrel | exact Hsr].
Defined.

Lemma config_release_overwritten_charm :
  dict_get "release"
    (CharmConfig.available_data (charm_config sources_charm_release))
    = Some (VStr "1.0") /\
  dict_get "release" (drop_empty (merged_config sources_charm_release))
    = Some (VStr "1.0") /\
  dict_get "release" (config sources_charm_release) = Some VNone.
Proof.
  split; [reflexivity|].
  apply (config_release_overwritten sources_charm_release (VStr "1.0"));
    reflexivity.
Defined.

Lemma UpdateDeployment_selector_first_controller :
  is_controller_deployment controller = Ok true /\
  getitem_path (fst (UpdateDeployment config_selector_only controller))
    ["spec"; "template"; "spec"; "nodeSelector"]
  = Ok (VDict [("juju-application", VStr "app1")]) /\
  UpdateDeployment config_bad_selector controller = (controller, Ok tt).
Proof.
  split; [reflexivity|].
  destruct (UpdateDeployment_selector_first config_selector_only controller
              eq_refl) as [Hsel _].
  destruct (UpdateDeployment_selector_first config_bad_selector controller
              eq_refl) as [_ Hbad].
  split.
  - apply (Hsel [("juju-application", VStr "app1")]
             [("serviceAccountName", VStr "vsphere-csi-controller")]);
      reflexivity.
  - apply Hbad. reflexivity.
Defined.

(** With a control-node-selector that is not a mapping, the replica count
    of the configuration, 3, does not reach the Deployment, which keeps
    its 1. *)
Lemma UpdateDeployment_bad_selector_blocks_replicas :
  is_controller_deployment controller = Ok true /\
  get config_bad_selector "replicas" = VInt 3 /\
  getitem_path (fst (UpdateDeployment config_bad_selector controller))
    ["spec"; "replicas"] = Ok (VInt 1) /\
  getitem_path (fst (UpdateDeployment config_bad_selector controller))
    ["spec"; "replicas"] <> Ok (get config_bad_selector "replicas").
Proof. repeat split; discriminate. Qed.

Lemma UpdateDeployment_controller_app1 :
  is_controller_deployment controller = Ok true /\
  getitem_path (fst (UpdateDeployment config_full controller))
    ["spec"; "template"; "spec"; "nodeSelector"]
    = Ok (VDict [("juju-application", VStr "app1")]) /\
  getitem_path (fst (UpdateDeployment config_full controller))
    ["spec"; "replicas"] = Ok (VInt 3) /\
  getitem_path (fst (UpdateDeployment config_selector_only controller))
    ["spec"; "replicas"] = Ok (VInt 1).
Proof.
  split; [reflexivity|].
  destruct (UpdateDeployment_controller config_full controller
              [("juju-application", VStr "app1")]
              [("serviceAccountName", VStr "vsphere-csi-controller")]
              eq_refl eq_refl eq_refl) as (Hns & Hrep & _).
  destruct (UpdateDeployment_controller config_selector_only controller
              [("juju-application", VStr "app1")]
              [("serviceAccountName", VStr "vsphere-csi-controller")]
              eq_refl eq_refl eq_refl) as (_ & _ & Habs).
  split; [exact Hns|]. split.
  - exact (proj2 (Hrep eq_refl)).
  - exact (Habs eq_refl).
Defined.

Lemma UpdateDeployment_other_object_service :
  get_method service "kind" <> Ok (VStr "Deployment") /\
  UpdateDeployment config_full service = (service, Ok tt).
Proof.
  assert (H : get_method service "kind" <> Ok (VStr "Deployment"))
    by discriminate.
  split; [exact H|].
  apply (proj2 (UpdateDeployment_other_object config_full service
                  (or_introl H)) (VStr "Service")).
  - reflexivity.
  - discriminate.
Defined.

Lemma zero_units_keep_replicas_controller :
  control_plane sources_zero_units = Some no_units /\
  dict_get "replicas" (config sources_zero_units) = Some (VInt 0) /\
  getitem_path (fst (UpdateDeployment (config sources_zero_units) controller))
    ["spec"; "replicas"] = Ok (VInt 1).
Proof.
  split; [reflexivity|].
  apply (zero_units_keep_replicas sources_zero_units no_units controller);
    reflexivity.
Defined.

(** With the control plane related and no unit, a replicas of the charm's
    own is what the configuration holds, not 0, and it is written to the
    Deployment. *)
Lemma charm_replicas_override_zero_units :
  control_plane sources_charm_replicas = Some no_units /\
  Relation.units no_units = [] /\
  dict_get "replicas" (config sources_charm_replicas) <> Some (VInt 0) /\
  getitem_path
    (fst (UpdateDeployment (config sources_charm_replicas) controller))
    ["spec"; "replicas"] = Ok (VInt 2) /\
  getitem_path
    (fst (UpdateDeployment (config sources_charm_replicas) controller))
    ["spec"; "replicas"] <> getitem_path controller ["spec"; "replicas"].
Proof. repeat split; discriminate. Qed.

(** * Further properties *)

(** ** The layers of the configuration *)

Lemma merged_config_layers (m : VsphereStorageManifests) :
  merged_config m =
  dict_update (relation_config m) (CharmConfig.available_data (charm_config m)).
Proof. reflexivity. Qed.

(** The entry of a key in [config], from the entry in the merged dict. *)
Lemma dict_get_config (m : VsphereStorageManifests) (k : string) :
  dict_get k (config m) =
  if k =? "release" then
    Some (match kept (merged_config m) "storage-release" with
          | Some v => v
          | None => VNone
          end)
  else if k =? "storage-release" then None
  else kept (merged_config m) k.
Proof.
  unfold config, kept. rewrite dict_get_rename_release.
  now rewrite !dict_get_drop_empty by apply NoDup_keys_merged.
Qed.

(** A key the charm is silent about has what the relations give it. *)
Lemma dict_get_merged_silent (m : VsphereStorageManifests) (k : string) :
  dict_get k (CharmConfig.available_data (charm_config m)) = None ->
  dict_get k (merged_config m) = dict_get k (relation_config m).
Proof.
  intros H. rewrite merged_config_layers, dict_get_update.
  now rewrite (dict_get_rev_None _ _ H).
Qed.

Lemma truthy_not_empty (v : value) : truthy v = true -> is_empty v = false.
Proof.
  destruct v; simpl; try reflexivity; try discriminate.
  unfold is_empty. simpl. intros H. apply negb_true_iff in H. now rewrite H.
Qed.

(** X1.  No value of the configuration is the empty string, and [None] is
    found under [release] only. *)
Theorem config_values_not_empty (m : VsphereStorageManifests) (k : string)
    (v : value) :
  dict_get k (config m) = Some v ->
  eq_str v EmptyString = false /\ (k <> "release" -> is_None v = false).
Proof.
  rewrite dict_get_config. unfold kept.
  destruct (k =? "release") eqn:Er.
  - intros [= <-]. split.
    + destruct (dict_get "storage-release" (merged_config m)) as [w|];
        [|reflexivity].
      destruct (is_empty w) eqn:Ew; [reflexivity|].
      unfold is_empty in Ew. now apply orb_false_iff in Ew.
    + apply String.eqb_eq in Er. congruence.
  - destruct (k =? "storage-release"); [discriminate|].
    destruct (dict_get k (merged_config m)) as [w|]; [|discriminate].
    destruct (is_empty w) eqn:Ew; [discriminate|].
    intros [= <-]. unfold is_empty in Ew. apply orb_false_iff in Ew.
    tauto.
Qed.

(** X2.  A value of the charm's own that is neither empty nor [None] is the
    value of its key in the configuration, whatever the relations hold for
    that key; [release] and [storage-release] apart. *)
Theorem config_charm_overrides (m : VsphereStorageManifests) (k : string)
    (v : value) :
  distinct (keys (CharmConfig.available_data (charm_config m))) = true ->
  dict_get k (CharmConfig.available_data (charm_config m)) = Some v ->
  is_empty v = false ->
  k <> "release" -> k <> "storage-release" ->
  dict_get k (config m) = Some v.
Proof.
  intros Hd Hk Hv Hr Hs. rewrite dict_get_config.
  apply String.eqb_neq in Hr, Hs. rewrite Hr, Hs. unfold kept.
  rewrite merged_config_layers, dict_get_update.
  rewrite dict_get_rev by now apply distinct_NoDup.
  now rewrite Hk, Hv.
Qed.

Lemma config_charm_overrides_server :
  dict_get "server" (config (sources [("server", VStr "vc.example")] None))
  = Some (VStr "vc.example").
Proof.
  apply config_charm_overrides; try reflexivity; discriminate.
Defined.

Lemma config_values_not_empty_server :
  dict_get "server" (config sources_zero_units) = Some (VStr "10.0.0.1") /\
  eq_str (VStr "10.0.0.1") EmptyString = false /\
  ("server" <> "release" -> is_None (VStr "10.0.0.1") = false).
Proof.
  split; [reflexivity|].
  apply (config_values_not_empty sources_zero_units "server"). reflexivity.
Defined.

(** X3.  A storage-release of the charm's own that is neither empty nor
    [None] is the release of the configuration, and the configuration has
    no storage-release. *)
Theorem config_storage_release (m : VsphereStorageManifests) (v : value) :
  distinct (keys (CharmConfig.available_data (charm_config m))) = true ->
  dict_get "storage-release" (CharmConfig.available_data (charm_config m))
    = Some v ->
  is_empty v = false ->
  dict_get "release" (config m) = Some v /\
  dict_get "storage-release" (config m) = None.
Proof.
  intros Hd Hk Hv. rewrite !dict_get_config. cbn [String.eqb Ascii.eqb
    Bool.eqb]. split; [|reflexivity].
  unfold kept. rewrite merged_config_layers, dict_get_update.
  rewrite dict_get_rev by now apply distinct_NoDup.
  now rewrite Hk, Hv.
Qed.

Lemma config_storage_release_sample :
  dict_get "release" (config sources_storage_release) = Some (VStr "1.2.3") /\
  dict_get "storage-release" (config sources_storage_release) = None.
Proof.
  apply (config_storage_release sources_storage_release (VStr "1.2.3"));
    reflexivity.
Defined.

(** ** The configuration is a well-formed dict *)

Lemma keys_del_in (k k' : string) (d : dict) :
  In k' (keys (dict_del k d)) -> In k' (keys d).
Proof.
  induction d as [|[k0 v0] r IH]; simpl; auto.
  destruct (k0 =? k); simpl; intuition.
Qed.

Lemma NoDup_keys_del (k : string) (d : dict) :
  NoDup (keys d) -> NoDup (keys (dict_del k d)).
Proof.
  induction d as [|[k0 v0] r IH]; simpl; intros H; auto.
  inversion H as [|? ? Hk Hr]; subst.
  destruct (k0 =? k); simpl; auto.
  constructor; auto. intros Hin. apply Hk. now apply keys_del_in in Hin.
Qed.

Lemma NoDup_keys_drop_loop (l c : dict) :
  NoDup (keys c) ->
  NoDup (keys
    (fold_left
       (fun config kv =>
          if is_empty (snd kv) then dict_del (fst kv) config else config)
       l c)).
Proof.
  revert c. induction l as [|[k0 v0] r IH]; simpl; intros c H; auto.
  apply IH. destruct (is_empty v0); auto using NoDup_keys_del.
Qed.

Lemma NoDup_keys_drop_empty (d : dict) :
  NoDup (keys d) -> NoDup (keys (drop_empty d)).
Proof. apply NoDup_keys_drop_loop. Qed.

Lemma NoDup_keys_config (m : VsphereStorageManifests) :
  NoDup (keys (config m)).
Proof.
  unfold config, rename_release, dict_pop.
  apply NoDup_keys_set, NoDup_keys_del, NoDup_keys_drop_empty,
    NoDup_keys_merged.
Qed.

Lemma wf_items_set (k : string) (v : value) (d : dict) :
  wf_value v = true -> wf_items d = true -> wf_items (dict_set k v d) = true.
Proof.
  intros Hv. induction d as [|[k0 v0] r IH]; simpl; intros H.
  - now rewrite Hv.
  - apply andb_true_iff in H as [H0 Hr].
    destruct (k0 =? k); simpl.
    + now rewrite Hv, Hr.
    + now rewrite H0, IH.
Qed.

Lemma wf_items_del (k : string) (d : dict) :
  wf_items d = true -> wf_items (dict_del k d) = true.
Proof.
  induction d as [|[k0 v0] r IH]; simpl; intros H; auto.
  apply andb_true_iff in H as [H0 Hr].
  destruct (k0 =? k); simpl; auto. now rewrite H0, IH.
Qed.

Lemma wf_items_update (d e : dict) :
  wf_items e = true -> wf_items d = true ->
  wf_items (dict_update d e) = true.
Proof.
  unfold dict_update. revert d.
  induction e as [|[k v] r IH]; simpl; intros d He Hd; auto.
  apply andb_true_iff in He as [Hv Hr].
  apply IH; auto using wf_items_set.
Qed.

Lemma wf_items_drop_loop (l c : dict) :
  wf_items c = true ->
  wf_items
    (fold_left
       (fun config kv =>
          if is_empty (snd kv) then dict_del (fst kv) config else config)
       l c) = true.
Proof.
  revert c. induction l as [|[k0 v0] r IH]; simpl; intros c H; auto.
  apply IH. destruct (is_empty v0); auto using wf_items_del.
Qed.

Lemma wf_items_drop_empty (d : dict) :
  wf_items d = true -> wf_items (drop_empty d) = true.
Proof. apply wf_items_drop_loop. Qed.

Lemma wf_items_get (k : string) (v : value) (d : dict) :
  wf_items d = true -> dict_get k d = Some v -> wf_value v = true.
Proof.
  intros H Hk. apply dict_get_In in Hk.
  unfold wf_items in H. rewrite forallb_forall in H. apply (H _ Hk).
Qed.

Lemma wf_items_relation_config (m : VsphereStorageManifests) :
  wf_sources m = true -> wf_items (relation_config m) = true.
Proof.
  unfold wf_sources. rewrite !andb_true_iff.
  intros [[[[[H1 H2] H3] H4] H5] _]. unfold relation_config.
  assert (H0 : wf_items
    (if Integrator.is_ready (integrator m)
     then [("server", Integrator.vsphere_ip (integrator m));
           ("username", Integrator.user (integrator m));
           ("password", Integrator.password (integrator m));
           ("datacenter", Integrator.datacenter (integrator m))]
     else []) = true).
  { destruct (Integrator.is_ready (integrator m)); [|reflexivity].
    unfold wf_items. simpl. now rewrite H1, H2, H3, H4. }
  destruct (KubeControl.is_ready (kube_control m)), (control_plane m);
    auto using wf_items_set.
Qed.

(** X4.  When the values the sources hand over are well formed, the
    configuration is: its keys are pairwise distinct, also when the same
    key comes from a relation and from the charm, and so are the keys of
    every dict inside it. *)
Theorem config_well_formed (m : VsphereStorageManifests) :
  wf_sources m = true -> wf_value (VDict (config m)) = true.
Proof.
  intros Hwf. cbn [wf_value]. apply andb_true_iff. split.
  - apply distinct_NoDup, NoDup_keys_config.
  - assert (Hm : wf_items (merged_config m) = true).
    { rewrite merged_config_layers. apply wf_items_update.
      - unfold wf_sources in Hwf. rewrite !andb_true_iff in Hwf. apply Hwf.
      - now apply wf_items_relation_config. }
    apply wf_items_drop_empty in Hm.
    unfold config, rename_release, dict_pop.
    apply wf_items_set; [|now apply wf_items_del].
    destruct (dict_get "storage-release" (drop_empty (merged_config m)))
      as [v|] eqn:E; [|reflexivity].
    apply (wf_items_get _ _ _ Hm E).
Qed.

Lemma config_well_formed_charm_server :
  wf_value
    (VDict (config (sources [("server", VStr "vc.example")] (Some no_units))))
  = true.
Proof. apply config_well_formed. reflexivity. Defined.

(** ** From the sources to readiness, secret and patch *)

Lemma dict_get_config_silent (m : VsphereStorageManifests) (k : string) :
  dict_get k (CharmConfig.available_data (charm_config m)) = None ->
  k <> "release" -> k <> "storage-release" ->
  dict_get k (config m) = kept (relation_config m) k.
Proof.
  intros H Hr Hs. rewrite dict_get_config.
  apply String.eqb_neq in Hr, Hs. rewrite Hr, Hs. unfold kept.
  now rewrite dict_get_merged_silent.
Qed.

Lemma relation_config_not_ready (m : VsphereStorageManifests) (k : string) :
  Integrator.is_ready (integrator m) = false ->
  In k ["server"; "username"; "password"; "datacenter"] ->
  dict_get k (relation_config m) = None.
Proof.
  intros Hr Hk. unfold relation_config. rewrite Hr.
  destruct (KubeControl.is_ready (kube_control m)), (control_plane m);
    simpl in Hk; destruct Hk as [<-|[<-|[<-|[<-|[]]]]]; reflexivity.
Qed.

Lemma relation_config_ready (m : VsphereStorageManifests) :
  Integrator.is_ready (integrator m) = true ->
  dict_get "server" (relation_config m)
    = Some (Integrator.vsphere_ip (integrator m)) /\
  dict_get "username" (relation_config m)
    = Some (Integrator.user (integrator m)) /\
  dict_get "password" (relation_config m)
    = Some (Integrator.password (integrator m)) /\
  dict_get "datacenter" (relation_config m)
    = Some (Integrator.datacenter (integrator m)).
Proof.
  intros Hr. unfold relation_config. rewrite Hr.
  destruct (KubeControl.is_ready (kube_control m)), (control_plane m);
    repeat split; reflexivity.
Qed.

Lemma relation_config_selector (m : VsphereStorageManifests) :
  dict_get "control-node-selector" (relation_config m) =
  match control_plane m with
  | Some rel =>
      Some (VDict
              [("juju-application", VStr (Relation.name (Relation.app rel)))])
  | None => None
  end.
Proof.
  unfold relation_config.
  destruct (Integrator.is_ready (integrator m)),
    (KubeControl.is_ready (kube_control m)), (control_plane m); reflexivity.
Qed.

Lemma relation_config_replicas (m : VsphereStorageManifests) :
  dict_get "replicas" (relation_config m) =
  match control_plane m with
  | Some rel => Some (VInt (Z.of_nat (length (Relation.units rel))))
  | None => None
  end.
Proof.
  unfold relation_config.
  destruct (Integrator.is_ready (integrator m)),
    (KubeControl.is_ready (kube_control m)), (control_plane m); reflexivity.
Qed.

Lemma CreateSecret_some (repr : value -> string) (config : dict)
    (model_uuid : string) :
  is_None (get config "username") = false ->
  is_None (get config "password") = false ->
  is_None (get config "server") = false ->
  is_None (get config "datacenter") = false ->
  exists payload,
    CreateSecret repr config model_uuid =
    Some (VDict
      [ ("apiVersion", VStr "v1");
        ("kind", VStr "Secret");
        ("type", VStr "Opaque");
        ("metadata", VDict [("name", VStr SECRET_NAME)]);
        ("data", VDict [(SECRET_DATA, VStr payload)]) ]) /\
    payload =
    decode (Base64.b64encode (encode
      (secret_config repr model_uuid (get config "username")
         (get config "password") (get config "server")
         (get config "datacenter")))).
Proof.
  intros Hu Hp Hs Hd. unfold CreateSecret. cbn [existsb].
  rewrite Hu, Hp, Hs, Hd. cbn [orb]. eexists. split; reflexivity.
Qed.

Lemma CreateSecret_none (repr : value -> string) (config : dict)
    (model_uuid k : string) :
  In k ["username"; "password"; "server"; "datacenter"] ->
  get config k = VNone ->
  CreateSecret repr config model_uuid = None.
Proof.
  intros Hk Hn. unfold CreateSecret.
  assert (E : existsb is_None
                [get config "username"; get config "password";
                 get config "server"; get config "datacenter"] = true).
  { apply existsb_exists. exists VNone. split; [|reflexivity].
    rewrite <- Hn. simpl in Hk |- *.
    destruct Hk as [<-|[<-|[<-|[<-|[]]]]]; tauto. }
  now rewrite E.
Qed.

(** X5.  While the integrator is not ready and the charm supplies no
    server, the configuration has no server: [evaluate] reports that it
    waits for it and [CreateSecret] adds nothing. *)
Theorem not_ready_waits_for_server (m : VsphereStorageManifests)
    (repr : value -> string) :
  Integrator.is_ready (integrator m) = false ->
  dict_get "server" (CharmConfig.available_data (charm_config m)) = None ->
  dict_get "server" (config m) = None /\
  evaluate m = Some "Storage manifests waiting for definition of server" /\
  CreateSecret repr (config m) (model_uuid m) = None.
Proof.
  intros Hr Hc.
  assert (H : dict_get "server" (config m) = None).
  { rewrite dict_get_config_silent by (assumption || discriminate).
    unfold kept. rewrite relation_config_not_ready; auto. simpl. tauto. }
  split; [assumption|]. split.
  - unfold evaluate, evaluate_config, props. cbn [evaluate_loop].
    unfold get at 1. now rewrite H.
  - apply (CreateSecret_none _ _ _ "server"); [simpl; tauto|].
    unfold get. now rewrite H.
Qed.

Lemma not_ready_waits_for_server_sample :
  dict_get "server" (config (sources_not_ready [])) = None /\
  evaluate (sources_not_ready [])
    = Some "Storage manifests waiting for definition of server" /\
  CreateSecret no_repr (config (sources_not_ready []))
    (model_uuid (sources_not_ready [])) = None.
Proof.
  apply (not_ready_waits_for_server (sources_not_ready []) no_repr);
    reflexivity.
Defined.

Lemma truthy_not_None (v : value) : truthy v = true -> is_None v = false.
Proof. destruct v; simpl; auto; discriminate. Qed.

(** X6.  A configuration that [evaluate] finds ready is one for which
    [CreateSecret] returns a secret. *)
Theorem evaluate_ready_secret (repr : value -> string) (config : dict)
    (model_uuid : string) :
  evaluate_config config = None ->
  exists obj, CreateSecret repr config model_uuid = Some obj.
Proof.
  intros H. unfold evaluate_config in H.
  rewrite evaluate_loop_None in H.
  destruct (CreateSecret_some repr config model_uuid)
    as (payload & -> & _);
    try (apply truthy_not_None, H; unfold props; simpl; tauto).
  eauto.
Qed.

Lemma evaluate_ready_secret_full :
  evaluate_config config_full = None /\
  exists obj, CreateSecret no_repr config_full "0b5e3c1a-model" = Some obj.
Proof.
  split; [reflexivity|]. apply evaluate_ready_secret. reflexivity.
Defined.

(** X7.  [CreateSecret] returns no object exactly when one of username,
    password, server, datacenter is absent or [None]; an empty string or a
    value that is not a string does not keep it from returning one. *)
Theorem CreateSecret_None_iff (repr : value -> string) (config : dict)
    (model_uuid : string) :
  CreateSecret repr config model_uuid = None <->
  get config "username" = VNone \/ get config "password" = VNone \/
  get config "server" = VNone \/ get config "datacenter" = VNone.
Proof.
  split.
  - intros H.
    destruct (is_None (get config "username")) eqn:Eu;
      [left; now destruct (get config "username")|].
    destruct (is_None (get config "password")) eqn:Ep;
      [right; left; now destruct (get config "password")|].
    destruct (is_None (get config "server")) eqn:Es;
      [right; right; left; now destruct (get config "server")|].
    destruct (is_None (get config "datacenter")) eqn:Ed;
      [right; right; right; now destruct (get config "datacenter")|].
    destruct (CreateSecret_some repr config model_uuid Eu Ep Es Ed)
      as (payload & E & _).
    congruence.
  - intros [H|[H|[H|H]]];
      [apply (CreateSecret_none _ _ _ "username")
      |apply (CreateSecret_none _ _ _ "password")
      |apply (CreateSecret_none _ _ _ "server")
      |apply (CreateSecret_none _ _ _ "datacenter")];
      simpl; tauto.
Qed.

Lemma CreateSecret_None_iff_empty_strings :
  CreateSecret no_repr
    [ ("username", VStr EmptyString); ("password", VInt 0);
      ("server", VList []); ("datacenter", VBool false) ] "0b5e3c1a-model"
  <> None.
Proof.
  intros H. apply CreateSecret_None_iff in H.
  destruct H as [H|[H|[H|H]]]; discriminate H.
Defined.

Lemma get_config_ready (m : VsphereStorageManifests) :
  Integrator.is_ready (integrator m) = true ->
  truthy (Integrator.vsphere_ip (integrator m)) = true ->
  truthy (Integrator.user (integrator m)) = true ->
  truthy (Integrator.password (integrator m)) = true ->
  truthy (Integrator.datacenter (integrator m)) = true ->
  (forall k, In k props ->
             dict_get k (CharmConfig.available_data (charm_config m)) = None) ->
  get (config m) "server" = Integrator.vsphere_ip (integrator m) /\
  get (config m) "username" = Integrator.user (integrator m) /\
  get (config m) "password" = Integrator.password (integrator m) /\
  get (config m) "datacenter" = Integrator.datacenter (integrator m) /\
  dict_get "control-node-selector" (config m) =
    match control_plane m with
    | Some rel =>
        Some (VDict
                [("juju-application", VStr (Relation.name (Relation.app rel)))])
    | None => None
    end.
Proof.
  intros Hr Hs Hu Hp Hd Hc.
  destruct (relation_config_ready m Hr) as (Es & Eu & Ep & Ed).
  unfold get.
  rewrite !dict_get_config_silent
    by (try discriminate; apply Hc; unfold props; simpl; tauto).
  unfold kept. rewrite Es, Eu, Ep, Ed, relation_config_selector.
  rewrite !truthy_not_empty by assumption.
  repeat split. now destruct (control_plane m).
Qed.

(** X8.  With the integrator ready and holding truthy values, the control
    plane related, and the charm silent about the five required keys,
    [evaluate] returns nothing: the manifests are ready to be applied. *)
Theorem evaluate_ready_sources (m : VsphereStorageManifests)
    (rel : Relation.t) :
  Integrator.is_ready (integrator m) = true ->
  truthy (Integrator.vsphere_ip (integrator m)) = true ->
  truthy (Integrator.user (integrator m)) = true ->
  truthy (Integrator.password (integrator m)) = true ->
  truthy (Integrator.datacenter (integrator m)) = true ->
  control_plane m = Some rel ->
  (forall k, In k props ->
             dict_get k (CharmConfig.available_data (charm_config m)) = None) ->
  evaluate m = None.
Proof.
  intros Hr Hs Hu Hp Hd Hcp Hc.
  destruct (get_config_ready m Hr Hs Hu Hp Hd Hc) as (Es & Eu & Ep & Ed & En).
  unfold evaluate, evaluate_config, props. cbn [evaluate_loop].
  rewrite Es, Eu, Ep, Ed, Hs, Hu, Hp, Hd. cbn [negb].
  unfold get. rewrite En, Hcp. reflexivity.
Qed.

Lemma evaluate_ready_sources_sample : evaluate sources_zero_units = None.
Proof.
  apply (evaluate_ready_sources sources_zero_units no_units); reflexivity.
Defined.

(** X9.  With the integrator ready and holding truthy values but no control
    plane related, and the charm silent about the five required keys,
    [evaluate] waits for control-node-selector. *)
Theorem evaluate_waits_for_control_plane (m : VsphereStorageManifests) :
  Integrator.is_ready (integrator m) = true ->
  truthy (Integrator.vsphere_ip (integrator m)) = true ->
  truthy (Integrator.user (integrator m)) = true ->
  truthy (Integrator.password (integrator m)) = true ->
  truthy (Integrator.datacenter (integrator m)) = true ->
  control_plane m = None ->
  (forall k, In k props ->
             dict_get k (CharmConfig.available_data (charm_config m)) = None) ->
  evaluate m =
  Some "Storage manifests waiting for definition of control-node-selector".
Proof.
  intros Hr Hs Hu Hp Hd Hcp Hc.
  destruct (get_config_ready m Hr Hs Hu Hp Hd Hc) as (Es & Eu & Ep & Ed & En).
  unfold evaluate, evaluate_config, props. cbn [evaluate_loop].
  rewrite Es, Eu, Ep, Ed, Hs, Hu, Hp, Hd. cbn [negb].
  unfold get. rewrite En, Hcp. reflexivity.
Qed.

Lemma evaluate_waits_for_control_plane_sample :
  evaluate (sources [] None) =
  Some "Storage manifests waiting for definition of control-node-selector".
Proof.
  apply evaluate_waits_for_control_plane; reflexivity.
Defined.

(** ** The patch on the configuration of the sources *)

(** On the controller Deployment with a mapping for selector the node
    selector is set, whatever becomes of the replica count. *)
Lemma UpdateDeployment_sets_selector (config : dict) (obj : value)
    (sel ps : dict) :
  is_controller_deployment obj = Ok true ->
  get config "control-node-selector" = VDict sel ->
  getitem_path obj ["spec"; "template"; "spec"] = Ok (VDict ps) ->
  getitem_path (fst (UpdateDeployment config obj))
    ["spec"; "template"; "spec"; "nodeSelector"] = Ok (VDict sel).
Proof.
  intros Hctl Hsel Hshape.
  destruct (controller_deployment_selector _ _ _ _ Hctl Hsel Hshape)
    as (obj1 & Hset & Hns & Hrep & ->).
  destruct (negb (truthy (get config "replicas"))).
  - now destruct (getitem_path obj1 ["spec"; "replicas"]).
  - destruct (setitem_path obj1 ["spec"] "replicas" (get config "replicas"))
      as [obj2|e] eqn:Hset2; [|assumption].
    cbn [fst]. rewrite <- Hns.
    apply (getitem_setitem_path_frame ["spec"] "replicas" "template"
             ["spec"; "nodeSelector"] _ _ _ Hset2).
    discriminate.
Qed.

(** X10.  With the control plane related and the charm silent about
    control-node-selector, the selector of the configuration is the single
    label juju-application with the name of the related application, and
    the patch writes it to the controller Deployment. *)
Theorem control_plane_selector_applied (m : VsphereStorageManifests)
    (rel : Relation.t) (obj : value) (ps : dict) :
  control_plane m = Some rel ->
  dict_get "control-node-selector"
    (CharmConfig.available_data (charm_config m)) = None ->
  is_controller_deployment obj = Ok true ->
  getitem_path obj ["spec"; "template"; "spec"] = Ok (VDict ps) ->
  let sel := [("juju-application", VStr (Relation.name (Relation.app rel)))] in
  dict_get "control-node-selector" (config m) = Some (VDict sel) /\
  getitem_path (fst (UpdateDeployment (config m) obj))
    ["spec"; "template"; "spec"; "nodeSelector"] = Ok (VDict sel).
Proof.
  intros Hcp Hc Hctl Hshape sel.
  assert (H : dict_get "control-node-selector" (config m) = Some (VDict sel)).
  { rewrite dict_get_config_silent by (assumption || discriminate).
    unfold kept. now rewrite relation_config_selector, Hcp. }
  split; [assumption|].
  apply (UpdateDeployment_sets_selector _ _ sel ps); auto.
  unfold get. now rewrite H.
Qed.

Lemma control_plane_selector_applied_sample :
  dict_get "control-node-selector" (config sources_zero_units)
    = Some (VDict [("juju-application", VStr "kubernetes-control-plane")]) /\
  getitem_path (fst (UpdateDeployment (config sources_zero_units) controller))
    ["spec"; "template"; "spec"; "nodeSelector"]
    = Ok (VDict [("juju-application", VStr "kubernetes-control-plane")]).
Proof.
  apply (control_plane_selector_applied sources_zero_units no_units controller
           [("serviceAccountName", VStr "vsphere-csi-controller")]);
    reflexivity.
Defined.

(** X11.  With the control plane related to at least one unit and the
    charm silent about replicas and control-node-selector, the patch sets
    spec.replicas of the controller Deployment to the number of related
    units and returns normally. *)
Theorem control_plane_units_applied (m : VsphereStorageManifests)
    (rel : Relation.t) (obj : value) (ps : dict) :
  control_plane m = Some rel ->
  Relation.units rel <> [] ->
  dict_get "replicas" (CharmConfig.available_data (charm_config m)) = None ->
  dict_get "control-node-selector"
    (CharmConfig.available_data (charm_config m)) = None ->
  is_controller_deployment obj = Ok true ->
  getitem_path obj ["spec"; "template"; "spec"] = Ok (VDict ps) ->
  snd (UpdateDeployment (config m) obj) = Ok tt /\
  getitem_path (fst (UpdateDeployment (config m) obj)) ["spec"; "replicas"]
  = Ok (VInt (Z.of_nat (length (Relation.units rel)))).
Proof.
  intros Hcp Hunits Hcr Hcs Hctl Hshape.
  assert (Hsel : get (config m) "control-node-selector" =
                 VDict [("juju-application",
                         VStr (Relation.name (Relation.app rel)))]).
  { unfold get. rewrite dict_get_config_silent by (assumption || discriminate).
    unfold kept. now rewrite relation_config_selector, Hcp. }
  assert (Hrep : get (config m) "replicas" =
                 VInt (Z.of_nat (length (Relation.units rel)))).
  { unfold get. rewrite dict_get_config_silent by (assumption || discriminate).
    unfold kept. now rewrite relation_config_replicas, Hcp. }
  destruct (controller_deployment_selector _ _ _ _ Hctl Hsel Hshape)
    as (obj1 & Hset & Hns & _ & ->).
  rewrite Hrep.
  assert (Ht : truthy (VInt (Z.of_nat (length (Relation.units rel)))) = true).
  { destruct (Relation.units rel); [contradiction|]. reflexivity. }
  rewrite Ht. cbn [negb].
  assert (Hspec : exists ds, getitem_path obj1 ["spec"] = Ok (VDict ds)).
  { change ["spec"; "template"; "spec"; "nodeSelector"]
      with (["spec"] ++ ["template"; "spec"; "nodeSelector"])%list in Hns.
    rewrite getitem_path_app in Hns.
    destruct (getitem_path obj1 ["spec"]) as [[]|] eqn:E; try discriminate.
    eauto. }
  destruct Hspec as [ds Hspec].
  destruct (setitem_path_succeeds _ "replicas"
              (VInt (Z.of_nat (length (Relation.units rel)))) _ _ Hspec)
    as [obj2 Hset2].
  rewrite Hset2. cbn [fst snd]. split; [reflexivity|].
  apply (getitem_setitem_path ["spec"] _ _ _ _ Hset2).
Qed.

Lemma control_plane_units_applied_sample :
  snd (UpdateDeployment (config (sources [] (Some two_units))) controller)
    = Ok tt /\
  getitem_path
    (fst (UpdateDeployment (config (sources [] (Some two_units))) controller))
    ["spec"; "replicas"] = Ok (VInt 2).
Proof.
  apply (control_plane_units_applied (sources [] (Some two_units)) two_units
           controller
           [("serviceAccountName", VStr "vsphere-csi-controller")]);
    try reflexivity.
  discriminate.
Defined.

(** ** What the patch leaves alone, and applying it again *)

Lemma dict_set_idem (k : string) (x : value) (d : dict) :
  dict_set k x (dict_set k x d) = dict_set k x d.
Proof.
  induction d as [|[k0 v0] r IH]; simpl.
  - now rewrite String.eqb_refl.
  - destruct (k0 =? k) eqn:E; simpl.
    + now rewrite String.eqb_refl.
    + now rewrite E, IH.
Qed.

Lemma dict_set_same (k : string) (x : value) (d : dict) :
  dict_get k d = Some x -> dict_set k x d = d.
Proof.
  induction d as [|[k0 v0] r IH]; simpl; [discriminate|].
  destruct (k0 =? k) eqn:E.
  - apply String.eqb_eq in E. intros [= ->]. now subst.
  - intros H. now rewrite IH.
Qed.

Lemma getitem_Ok (v x : value) (k : string) :
  getitem v k = Ok x -> exists d, v = VDict d /\ dict_get k d = Some x.
Proof.
  destruct v; simpl; try discriminate.
  destruct (dict_get k d) eqn:E; [|discriminate]. intros [= ->]. eauto.
Qed.

(** Assigning once more what was assigned changes nothing. *)
Lemma setitem_path_idem (path : list string) (k : string) (x : value) :
  forall v v' : value,
    setitem_path v path k x = Ok v' -> setitem_path v' path k x = Ok v'.
Proof.
  induction path as [|p path IH]; intros v v' H.
  - cbn [setitem_path] in *. destruct v; simpl in H; try discriminate.
    injection H as <-. simpl. now rewrite dict_set_idem.
  - rewrite setitem_path_cons in *.
    destruct (getitem v p) as [inner|e] eqn:E1; cbn [bind] in H;
      [|discriminate].
    destruct (setitem_path inner path k x) as [inner'|e] eqn:E2;
      cbn [bind] in H; [|discriminate].
    rewrite (getitem_setitem_eq _ _ _ _ H). cbn [bind].
    rewrite (IH _ _ E2). cbn [bind].
    destruct v; simpl in H; try discriminate. injection H as <-.
    simpl. now rewrite dict_set_idem.
Qed.

(** Assigning what is already there changes nothing. *)
Lemma setitem_path_same (path : list string) (k : string) (x : value) :
  forall v : value,
    getitem_path v (path ++ [k])%list = Ok x ->
    setitem_path v path k x = Ok v.
Proof.
  induction path as [|p path IH]; intros v H.
  - cbn [app getitem_path] in H. cbn [setitem_path].
    destruct (getitem v k) as [y|e] eqn:E; cbn [bind] in H; [|discriminate].
    injection H as ->. apply getitem_Ok in E as (d & -> & Hd).
    simpl. now rewrite (dict_set_same _ _ _ Hd).
  - cbn [app getitem_path] in H. rewrite setitem_path_cons.
    destruct (getitem v p) as [inner|e] eqn:E; cbn [bind] in *;
      [|discriminate].
    rewrite (IH _ H). cbn [bind].
    apply getitem_Ok in E as (d & -> & Hd).
    simpl. now rewrite (dict_set_same _ _ _ Hd).
Qed.

(** An assignment below [p] yields a dict with the other entries of the
    dict it started from. *)
Lemma setitem_path_entries (p : string) (rest : list string) (k : string)
    (x v v' : value) :
  setitem_path v (p :: rest) k x = Ok v' ->
  exists d d', v = VDict d /\ v' = VDict d' /\
               forall q, p <> q -> dict_get q d' = dict_get q d.
Proof.
  rewrite setitem_path_cons. intros H.
  destruct (getitem v p) as [inner|e] eqn:E1; cbn [bind] in H;
    [|discriminate].
  destruct (setitem_path inner rest k x) as [inner'|e];
    cbn [bind] in H; [|discriminate].
  apply getitem_Ok in E1 as (d & -> & Hd). simpl in H. injection H as <-.
  exists d, (dict_set p inner' d). repeat split.
  intros q Hq. now apply dict_get_set_neq.
Qed.

Lemma is_controller_deployment_entries (d d' : dict) :
  (forall q, "spec" <> q -> dict_get q d' = dict_get q d) ->
  is_controller_deployment (VDict d') = is_controller_deployment (VDict d).
Proof.
  intros H. unfold is_controller_deployment.
  cbn [get_method getitem_path getitem bind]. unfold get.
  now rewrite (H "kind"), (H "metadata") by discriminate.
Qed.

(** X12.  The patch changes nothing of an object but what is under its
    spec: every other entry, kind and metadata among them, reads the same
    after the call as before, however the call ends. *)
Theorem UpdateDeployment_only_spec (config : dict) (obj : value) (k : string) :
  k <> "spec" ->
  getitem (fst (UpdateDeployment config obj)) k = getitem obj k.
Proof.
  intros Hk. unfold UpdateDeployment.
  destruct (is_controller_deployment obj) as [[|]|e]; auto.
  destruct (negb (is_dict (get config "control-node-selector"))); auto.
  destruct (setitem_path obj ["spec"; "template"; "spec"] "nodeSelector"
              (get config "control-node-selector")) as [obj1|e] eqn:Hset; auto.
  assert (H1 : getitem obj1 k = getitem obj k)
    by (apply (getitem_setitem_path_other _ _ _ _ _ _ _ Hset); congruence).
  destruct (negb (truthy (get config "replicas"))).
  - now destruct (getitem_path obj1 ["spec"; "replicas"]).
  - destruct (setitem_path obj1 ["spec"] "replicas" (get config "replicas"))
      as [obj2|e] eqn:Hset2; auto.
    cbn [fst]. rewrite <- H1.
    apply (getitem_setitem_path_other _ _ _ _ _ _ _ Hset2). congruence.
Qed.

Lemma UpdateDeployment_only_spec_metadata :
  getitem (fst (UpdateDeployment config_full controller)) "metadata"
  = Ok (VDict [("name", VStr "vsphere-csi-controller")]).
Proof.
  rewrite UpdateDeployment_only_spec by discriminate. reflexivity.
Defined.

Lemma UpdateDeployment_again (config : dict) (obj : value) :
  UpdateDeployment config (fst (UpdateDeployment config obj)) =
  (fst (UpdateDeployment config obj), snd (UpdateDeployment config obj)).
Proof.
  unfold UpdateDeployment at 2 3 4.
  destruct (is_controller_deployment obj) as [[|]|e] eqn:Hctl.
  - destruct (negb (is_dict (get config "control-node-selector"))) eqn:Hd.
    + cbn [fst snd]. unfold UpdateDeployment. now rewrite Hctl, Hd.
    + destruct (setitem_path obj ["spec"; "template"; "spec"] "nodeSelector"
                  (get config "control-node-selector")) as [obj1|e] eqn:Hset.
      * assert (Hctl1 : is_controller_deployment obj1 = Ok true).
        { destruct (setitem_path_entries _ _ _ _ _ _ Hset)
            as (d & d' & -> & -> & Hent).
          now rewrite (is_controller_deployment_entries _ _ Hent). }
        destruct (negb (truthy (get config "replicas"))) eqn:Ht.
        -- assert (E : forall r : result value,
                     (fst (match r with
                           | Ok _ => (obj1, Ok tt)
                           | Raise e => (obj1, Raise e)
                           end) = obj1))
             by (now intros []).
           rewrite E. unfold UpdateDeployment.
           rewrite Hctl1, Hd, (setitem_path_idem _ _ _ _ _ Hset), Ht.
           now destruct (getitem_path obj1 ["spec"; "replicas"]).
        -- destruct (setitem_path obj1 ["spec"] "replicas"
                       (get config "replicas")) as [obj2|e] eqn:Hset2.
           ++ cbn [fst snd]. unfold UpdateDeployment.
              assert (Hctl2 : is_controller_deployment obj2 = Ok true).
              { destruct (setitem_path_entries _ _ _ _ _ _ Hset2)
                  as (d & d' & -> & -> & Hent).
                now rewrite (is_controller_deployment_entries _ _ Hent). }
              rewrite Hctl2, Hd.
              assert (Hns : getitem_path obj2
                              (["spec"; "template"; "spec"] ++ ["nodeSelector"])
                            = Ok (get config "control-node-selector")).
              { rewrite <- (getitem_setitem_path _ _ _ _ _ Hset).
                apply (getitem_setitem_path_frame ["spec"] "replicas"
                         "template" ["spec"; "nodeSelector"] _ _ _ Hset2).
                discriminate. }
              rewrite (setitem_path_same _ _ _ _ Hns), Ht.
              now rewrite (setitem_path_idem _ _ _ _ _ Hset2).
           ++ cbn [fst snd]. unfold UpdateDeployment.
              rewrite Hctl1, Hd, (setitem_path_idem _ _ _ _ _ Hset), Ht.
              now rewrite Hset2.
      * cbn [fst snd]. unfold UpdateDeployment. now rewrite Hctl, Hd, Hset.
  - cbn [fst snd]. unfold UpdateDeployment. now rewrite Hctl.
  - cbn [fst snd]. unfold UpdateDeployment. now rewrite Hctl.
Qed.

(** X13.  Applying the patch to an object it has been applied to, under the
    same configuration, ends the same way and leaves the object as the
    first application left it. *)
Theorem UpdateDeployment_idempotent (config : dict) (obj : value) :
  UpdateDeployment config (fst (UpdateDeployment config obj)) =
  UpdateDeployment config obj.
Proof.
  rewrite UpdateDeployment_again. symmetry. apply surjective_pairing.
Qed.

(** ** How the patch ends *)

(** X14.  On the controller Deployment, with a mapping for selector, the
    patch returns normally exactly when the configuration has a truthy
    replicas or the Deployment has a spec.replicas to report. *)
Theorem UpdateDeployment_returns_iff (config : dict) (obj : value)
    (sel ps : dict) :
  is_controller_deployment obj = Ok true ->
  get config "control-node-selector" = VDict sel ->
  getitem_path obj ["spec"; "template"; "spec"] = Ok (VDict ps) ->
  snd (UpdateDeployment config obj) = Ok tt <->
  truthy (get config "replicas") = true \/
  exists r, getitem_path obj ["spec"; "replicas"] = Ok r.
Proof.
  intros Hctl Hsel Hshape.
  destruct (controller_deployment_selector _ _ _ _ Hctl Hsel Hshape)
    as (obj1 & Hset & Hns & Hrep & ->).
  destruct (truthy (get config "replicas")) eqn:Et; cbn [negb].
  - split; [now left|]. intros _.
    assert (Hspec : exists ds, getitem_path obj1 ["spec"] = Ok (VDict ds)).
    { change ["spec"; "template"; "spec"; "nodeSelector"]
        with (["spec"] ++ ["template"; "spec"; "nodeSelector"])%list in Hns.
      rewrite getitem_path_app in Hns.
      destruct (getitem_path obj1 ["spec"]) as [[]|] eqn:E; try discriminate.
      eauto. }
    destruct Hspec as [ds Hspec].
    destruct (setitem_path_succeeds _ "replicas" (get config "replicas")
                _ _ Hspec) as [obj2 ->].
    reflexivity.
  - rewrite Hrep.
    destruct (getitem_path obj ["spec"; "replicas"]) as [r|e]; cbn [snd].
    + split; [right; eauto | reflexivity].
    + split; [discriminate|]. intros [H|[r H]]; discriminate.
Qed.

Lemma UpdateDeployment_returns_iff_no_replicas :
  snd (UpdateDeployment config_selector_only controller_no_replicas)
  <> Ok tt.
Proof.
  intros H.
  apply (UpdateDeployment_returns_iff config_selector_only
           controller_no_replicas [("juju-application", VStr "app1")] [])
    in H; try reflexivity.
  destruct H as [H|[r H]]; discriminate H.
Defined.

(** X15.  When the controller Deployment has no spec.replicas and the
    configuration no truthy replicas, the patch raises from the warning it
    builds; by then the node selector has been set, and the object keeps
    it. *)
Theorem UpdateDeployment_raises_after_selector (config : dict) (obj : value)
    (sel ps : dict) (e : exn) :
  is_controller_deployment obj = Ok true ->
  get config "control-node-selector" = VDict sel ->
  getitem_path obj ["spec"; "template"; "spec"] = Ok (VDict ps) ->
  truthy (get config "replicas") = false ->
  getitem_path obj ["spec"; "replicas"] = Raise e ->
  snd (UpdateDeployment config obj) = Raise e /\
  getitem_path (fst (UpdateDeployment config obj))
    ["spec"; "template"; "spec"; "nodeSelector"] = Ok (VDict sel).
Proof.
  intros Hctl Hsel Hshape Et Hr.
  destruct (controller_deployment_selector _ _ _ _ Hctl Hsel Hshape)
    as (obj1 & Hset & Hns & Hrep & ->).
  rewrite Et, Hrep, Hr. cbn [negb fst snd]. now split.
Qed.

Lemma UpdateDeployment_raises_after_selector_sample :
  snd (UpdateDeployment config_selector_only controller_no_replicas)
    = Raise (KeyError "replicas") /\
  getitem_path
    (fst (UpdateDeployment config_selector_only controller_no_replicas))
    ["spec"; "template"; "spec"; "nodeSelector"]
    = Ok (VDict [("juju-application", VStr "app1")]).
Proof.
  apply (UpdateDeployment_raises_after_selector config_selector_only
           controller_no_replicas [("juju-application", VStr "app1")] []);
    reflexivity.
Defined.

(** X16.  A Deployment whose metadata or metadata.name cannot be read makes
    the patch raise what the subscript raises, under every configuration,
    and is left as it was. *)
Theorem UpdateDeployment_unreadable_name (config : dict) (obj : value)
    (e : exn) :
  get_method obj "kind" = Ok (VStr "Deployment") ->
  getitem_path obj ["metadata"; "name"] = Raise e ->
  UpdateDeployment config obj = (obj, Raise e).
Proof.
  intros Hk Hn. unfold UpdateDeployment, is_controller_deployment.
  rewrite Hk. cbn [bind eq_str]. rewrite String.eqb_refl, Hn. reflexivity.
Qed.

Lemma UpdateDeployment_unreadable_name_sample :
  UpdateDeployment config_full deployment_no_metadata
  = (deployment_no_metadata, Raise (KeyError "metadata")).
Proof.
  apply UpdateDeployment_unreadable_name; reflexivity.
Defined.

(** X17.  The objects this module adds pass through its patch untouched
    and without an exception: the secret of any configuration and the
    storage class of any type, under any configuration of the patch. *)
Theorem UpdateDeployment_passes_additions (repr : value -> string)
    (config config' : dict) (model_uuid sc_type : string) (obj : value) :
  CreateSecret repr config' model_uuid = Some obj \/
  CreateStorageClass sc_type = Some obj ->
  UpdateDeployment config obj = (obj, Ok tt).
Proof.
  intros [H|H].
  - unfold CreateSecret in H.
    destruct (existsb is_None _); [discriminate|]. now injection H as <-.
  - unfold CreateStorageClass in H. now injection H as <-.
Qed.

Lemma UpdateDeployment_passes_additions_default :
  exists obj,
    CreateStorageClass "default" = Some obj /\
    UpdateDeployment config_full obj = (obj, Ok tt).
Proof.
  eexists. split; [reflexivity|].
  apply (UpdateDeployment_passes_additions no_repr config_full config_full
           "0b5e3c1a-model" "default").
  right. reflexivity.
Defined.

(** ** The additions *)

(** X18.  Storage classes of two types are two objects: the type is read
    back from the name, which is csi-vsphere- followed by the type. *)
Theorem CreateStorageClass_name (sc_type : string) :
  (exists obj,
      CreateStorageClass sc_type = Some obj /\
      getitem_path obj ["metadata"; "name"] =
      Ok (VStr ("csi-vsphere-" ++ sc_type)) /\
      getitem_path obj
        ["metadata"; "annotations";
         "storageclass.kubernetes.io/is-default-class"] = Ok (VStr "true")) /\
  (forall sc_type',
      CreateStorageClass sc_type = CreateStorageClass sc_type' ->
      sc_type = sc_type').
Proof.
  split.
  - eexists. repeat split.
  - intros t H. unfold CreateStorageClass, STORAGE_CLASS_NAME in H.
    simpl in H. now injection H.
Qed.

Lemma CreateStorageClass_name_distinct :
  CreateStorageClass "default" <> CreateStorageClass "retain".
Proof.
  intros H. apply (proj2 (CreateStorageClass_name "default")) in H.
  discriminate H.
Defined.

(** X19.  The payload of a secret is the blob of lines 68-78 and nothing
    else: whatever the four values are, decoding it as base64 and then as
    UTF-8 gives the very text the f-string produced. *)
Theorem CreateSecret_payload_decodes (repr : value -> string) (config : dict)
    (model_uuid : string) (obj : value) :
  CreateSecret repr config model_uuid = Some obj ->
  exists payload,
    getitem_path obj ["data"; SECRET_DATA] = Ok (VStr payload) /\
    option_map decode (Base64.b64decode (encode payload)) =
    Some (secret_config repr model_uuid (get config "username")
            (get config "password") (get config "server")
            (get config "datacenter")).
Proof.
  unfold CreateSecret. destruct (existsb is_None _); [discriminate|].
  intros [= <-].
  exists (decode (Base64.b64encode (encode
            (secret_config repr model_uuid (get config "username")
               (get config "password") (get config "server")
               (get config "datacenter"))))).
  split; [reflexivity|].
  unfold encode, decode.
  rewrite list_byte_of_string_of_list_byte, b64decode_b64encode.
  cbn [option_map]. now rewrite string_of_list_byte_of_string.
Qed.

Lemma CreateSecret_payload_decodes_split :
  exists obj payload,
    CreateSecret no_repr config_split_a "0b5e3c1a-model" = Some obj /\
    getitem_path obj ["data"; SECRET_DATA] = Ok (VStr payload) /\
    option_map decode (Base64.b64decode (encode payload)) =
    Some (secret_config no_repr "0b5e3c1a-model" (VStr "u") (VStr "a")
            (VStr "vc") (VStr ("b" ++ closing_lines ++ "c"))).
Proof.
  destruct (CreateSecret no_repr config_split_a "0b5e3c1a-model")
    as [obj|] eqn:E; [|discriminate E].
  destruct (CreateSecret_payload_decodes _ _ _ _ E) as (payload & H1 & H2).
  exists obj, payload. repeat split; assumption.
Defined.

(** ** The fingerprint *)

Lemma dict_get_perm (k : string) (d d' : dict) :
  NoDup (keys d) -> Permutation d d' -> dict_get k d = dict_get k d'.
Proof.
  intros Hnd Hp.
  assert (Hnd' : NoDup (keys d'))
    by apply (Permutation_NoDup (Permutation_map fst Hp) Hnd).
  destruct (dict_get k d) as [v|] eqn:E.
  - symmetry. apply In_dict_get; auto.
    apply (Permutation_in _ Hp). now apply dict_get_In.
  - symmetry. apply dict_get_None. rewrite dict_get_None in E.
    intros Hin. apply E.
    apply (Permutation_in _ (Permutation_sym (Permutation_map fst Hp)) Hin).
Qed.

Lemma dict_perm_of_get (d d' : dict) :
  NoDup (keys d) -> NoDup (keys d') ->
  (forall k, dict_get k d = dict_get k d') -> Permutation d d'.
Proof.
  intros Hd Hd' H. apply NoDup_Permutation.
  - now apply NoDup_map_inv in Hd.
  - now apply NoDup_map_inv in Hd'.
  - intros [k v]. split; intros Hin.
    + apply dict_get_In. rewrite <- H. now apply In_dict_get.
    + apply dict_get_In. rewrite H. now apply In_dict_get.
Qed.

Lemma dumps_dict_perm (d d' : dict) :
  NoDup (keys d) -> Permutation d d' -> dumps (VDict d) = dumps (VDict d').
Proof.
  intros Hd Hp. cbn [dumps].
  rewrite (sort_items_perm _ _
             (Permutation_map (fun kv => (fst kv, dumps (snd kv))) Hp)).
  - reflexivity.
  - now rewrite map_map.
Qed.

(** X20.  The hash is settled by what the configuration holds under each
    key: two states of the sources whose configurations agree key by key
    have the same hash, in whatever order the keys came to be there. *)
Theorem hash_settled_by_content (m m' : VsphereStorageManifests) :
  (forall k, dict_get k (config m) = dict_get k (config m')) ->
  hash m = hash m'.
Proof.
  intros H. unfold hash, hash_config.
  rewrite (dumps_dict_perm (config m) (config m')); auto.
  - apply NoDup_keys_config.
  - apply dict_perm_of_get; auto using NoDup_keys_config.
Qed.

Lemma hash_settled_by_content_sample :
  hash (sources [("image-registry", VStr EmptyString)] (Some no_units)) =
  hash (sources [] (Some no_units)).
Proof.
  apply hash_settled_by_content.
  assert (Hm : forall k,
             kept (merged_config
                     (sources [("image-registry", VStr EmptyString)]
                        (Some no_units))) k =
             kept (merged_config (sources [] (Some no_units))) k).
  { intros k. unfold kept. rewrite !merged_config_layers, !dict_get_update.
    cbn [sources charm_config CharmConfig.available_data rev app dict_get].
    destruct ("image-registry" =? k) eqn:E; [|reflexivity].
    apply String.eqb_eq in E. subst k. reflexivity. }
  intros k. rewrite !dict_get_config. now rewrite !Hm.
Defined.

(** X21.  The order in which the charm hands over its own values does not
    show in the hash. *)
Theorem hash_charm_order (m : VsphereStorageManifests) (charm : dict) :
  distinct (keys (CharmConfig.available_data (charm_config m))) = true ->
  Permutation (CharmConfig.available_data (charm_config m)) charm ->
  hash (with_charm m charm) = hash m.
Proof.
  intros Hd Hp. apply distinct_NoDup in Hd.
  assert (Hd' : NoDup (keys charm))
    by apply (Permutation_NoDup (Permutation_map fst Hp) Hd).
  unfold hash, hash_config.
  rewrite (dumps_dict_perm (config (with_charm m charm)) (config m)); auto.
  - apply NoDup_keys_config.
  - apply dict_perm_of_get; auto using NoDup_keys_config.
    assert (Hm : forall k, dict_get k (merged_config (with_charm m charm)) =
                           dict_get k (merged_config m)).
    { intros k. rewrite !merged_config_layers, !dict_get_update.
      cbn [with_charm charm_config CharmConfig.available_data].
      rewrite !dict_get_rev by assumption.
      rewrite <- (dict_get_perm k _ _ Hd Hp). reflexivity. }
    intros k. rewrite !dict_get_config. unfold kept. now rewrite !Hm.
Qed.

Lemma hash_charm_order_sample :
  hash (with_charm
          (sources [("image-registry", VStr "r.example"); ("replicas", VInt 2)]
             (Some no_units))
          [("replicas", VInt 2); ("image-registry", VStr "r.example")]) =
  hash (sources [("image-registry", VStr "r.example"); ("replicas", VInt 2)]
          (Some no_units)).
Proof.
  apply hash_charm_order; [reflexivity | apply perm_swap].
Defined.

(** ** The range of the hash *)

Lemma hex_value_hex_digit (i : N) :
  (i < 16)%N -> hex_value (hex_digit i) = Z.of_N i.
Proof.
  intros Hi. destruct i as [|p]; [reflexivity|].
  do 4 (destruct p as [p|p|]; try reflexivity);
    exfalso; unfold N.lt in Hi; cbn in Hi; destruct p; discriminate Hi.
Qed.

Lemma int16_from_hex2 (acc : Z) (n : N) (s : string) :
  int16_from acc (hex2 n ++ s) =
  int16_from (256 * acc + Z.of_N (n mod 256))%Z s.
Proof.
  unfold hex2. cbn [append int16_from].
  rewrite !hex_value_hex_digit by (apply N.mod_upper_bound; discriminate).
  f_equal. divlia.
Qed.

Lemma concat_empty_cons (x : string) (l : list string) :
  String.concat EmptyString (x :: l) = x ++ String.concat EmptyString l.
Proof.
  destruct l as [|y l]; cbn [String.concat].
  - induction x as [|c x IH]; simpl; congruence.
  - reflexivity.
Qed.

Lemma int16_from_hex (l : list N) (acc : Z) :
  int16_from acc (String.concat EmptyString (map hex2 l)) =
  fold_left (fun a n => (256 * a + Z.of_N (n mod 256))%Z) l acc.
Proof.
  revert acc. induction l as [|n l IH]; intros acc; [reflexivity|].
  cbn [map fold_left]. now rewrite concat_empty_cons, int16_from_hex2, IH.
Qed.

Lemma big_endian_bound (l : list N) (acc : Z) :
  (0 <= acc)%Z ->
  (0 <= fold_left (fun a n => (256 * a + Z.of_N (n mod 256))%Z) l acc
   < (acc + 1) * 256 ^ Z.of_nat (length l))%Z.
Proof.
  revert acc. induction l as [|n l IH]; intros acc Hacc.
  - cbn [fold_left length]. change (256 ^ Z.of_nat 0)%Z with 1%Z. lia.
  - cbn [fold_left length].
    pose proof (N.mod_upper_bound n 256 ltac:(discriminate)) as Hm.
    set (r := (n mod 256)%N) in *.
    assert (Hn : (0 <= Z.of_N r < 256)%Z) by lia.
    specialize (IH (256 * acc + Z.of_N r)%Z ltac:(lia)).
    rewrite Nat2Z.inj_succ, Z.pow_succ_r by lia.
    assert (Hp : (0 < 256 ^ Z.of_nat (length l))%Z)
      by (apply Z.pow_pos_nonneg; lia).
    nia.
Qed.

Lemma le_bytes_length (n : nat) (x : N) : length (MD5.le_bytes n x) = n.
Proof. revert x. induction n; intros x; simpl; auto. Qed.

Lemma digest_length (msg : bytes) : length (MD5.digest msg) = 16%nat.
Proof.
  unfold MD5.digest.
  destruct (MD5.blocks _ _ _) as [[[a b] c] d].
  now rewrite !length_app, !le_bytes_length.
Qed.

(** X22.  The hash is the digest read as one number, first byte most
    significant, and so lies between 0 and 2^128 - 1, whatever the
    configuration. *)
Theorem hash_range (config : dict) :
  hash_config config = big_endian (MD5.digest (encode (dumps (VDict config))))
  /\ (0 <= hash_config config < 2 ^ 128)%Z.
Proof.
  assert (E : hash_config config =
              big_endian (MD5.digest (encode (dumps (VDict config)))))
    by apply int16_from_hex.
  split; [exact E|]. rewrite E. unfold big_endian.
  pose proof (big_endian_bound
                (MD5.digest (encode (dumps (VDict config)))) 0 ltac:(lia)) as H.
  rewrite digest_length in H. exact H.
Qed.

(** ** The payload as text *)

Lemma char_ascii (i : N) :
  (i < 64)%N -> (Byte.to_N (Base64.char i) < 128)%N.
Proof.
  intros Hi. destruct i as [|p]; [reflexivity|].
  do 6 (destruct p as [p|p|]; try reflexivity);
    exfalso; unfold N.lt in Hi; cbn in Hi; destruct p; discriminate Hi.
Qed.

(** X23.  What [b64encode] returns is four ASCII characters for every
    three bytes begun, so decoding it as UTF-8, as line 84 does, cannot
    fail. *)
Theorem b64encode_ascii (bs : bytes) :
  length (Base64.b64encode bs) = (4 * ((length bs + 2) / 3))%nat /\
  Forall (fun b => (Byte.to_N b < 128)%N) (Base64.b64encode bs).
Proof.
  induction bs as [|x|x y|x y z r [IHl IHa]] using list_ind3.
  - split; [reflexivity | constructor].
  - pose proof (Byte.to_N_bounded x) as Hx.
    split; [reflexivity|]. cbn [Base64.b64encode].
    repeat constructor; try (apply char_ascii; divlia).
  - pose proof (Byte.to_N_bounded x) as Hx.
    pose proof (Byte.to_N_bounded y) as Hy.
    split; [reflexivity|]. cbn [Base64.b64encode].
    repeat constructor; try (apply char_ascii; divlia).
  - pose proof (Byte.to_N_bounded x) as Hx.
    pose proof (Byte.to_N_bounded y) as Hy.
    pose proof (Byte.to_N_bounded z) as Hz.
    cbn [Base64.b64encode length]. split.
    + rewrite IHl.
      replace (S (S (S (length r))) + 2)%nat
        with ((length r + 2) + 1 * 3)%nat by lia.
      rewrite Nat.div_add by discriminate. lia.
    + repeat (constructor; [apply char_ascii; divlia|]). exact IHa.
Qed.

(** ** The order of the keys in the text *)

Lemma insert_item_perm {A : Type} (x : string * A) (l : list (string * A)) :
  Permutation (insert_item x l) (x :: l).
Proof.
  induction l as [|a r IH]; simpl; auto.
  destruct (String.leb (fst x) (fst a)); auto.
  rewrite IH. apply perm_swap.
Qed.

Lemma ascending_cons (x : string) (l : list string) :
  ascending (x :: l) = true <->
  (forall y, In y l -> String.leb x y = true) /\ ascending l = true.
Proof.
  revert x. induction l as [|a r IH]; intros x.
  - simpl. split; [intros _; split; [intros y []|reflexivity] | reflexivity].
  - change (ascending (x :: a :: r))
      with (String.leb x a && ascending (a :: r)).
    rewrite andb_true_iff. split.
    + intros [Hxa Har]. split; [|assumption].
      intros y [<-|Hy]; [assumption|].
      apply (leb_trans _ a); [assumption|].
      now apply (proj1 (proj1 (IH a) Har)).
    + intros [Hall Har]. split; [|assumption]. apply Hall. now left.
Qed.

Lemma insert_item_ascending {A : Type} (x : string * A)
    (l : list (string * A)) :
  ascending (map fst l) = true ->
  ascending (map fst (insert_item x l)) = true.
Proof.
  induction l as [|a r IH]; simpl; intros H; [reflexivity|].
  destruct (String.leb (fst x) (fst a)) eqn:E.
  - change (map fst (x :: a :: r)) with (fst x :: map fst (a :: r)).
    change (ascending (fst x :: map fst (a :: r)))
      with (String.leb (fst x) (fst a) && ascending (map fst (a :: r))).
    now rewrite E.
  - change (map fst (a :: insert_item x r))
      with (fst a :: map fst (insert_item x r)).
    change (fst a :: map fst r) with (fst a :: map fst r) in H.
    apply ascending_cons in H as [Hall Hr].
    apply ascending_cons. split; [|now apply IH].
    intros y Hy.
    apply (Permutation_in _ (Permutation_map fst (insert_item_perm x r)))
      in Hy.
    destruct Hy as [<-|Hy]; [now apply leb_false_flip | now apply Hall].
Qed.

(** X24.  In the text that is hashed the items of a dict come in ascending
    order of their keys, each item once: [sorted] neither drops nor repeats
    one. *)
Theorem sort_items_sorted {A : Type} (l : list (string * A)) :
  Permutation (sort_items l) l /\ ascending (map fst (sort_items l)) = true.
Proof.
  induction l as [|x l [IHp IHa]]; simpl.
  - split; [constructor | reflexivity].
  - split.
    + rewrite insert_item_perm. now constructor.
    + now apply insert_item_ascending.
Qed.
